(** * GrinchBotV1: the message-handling flow of [MainBot.py]

    A shallow embedding of the bot's module-level start-up, of
    [load_reference], [ask_gemini], [handle_start], [handle_text] and [main],
    together with the properties of the relay that the specification states.

    Conventions.
    - A Python [str] is a Rocq [string] holding the UTF-8 encoding of the text.
      UTF-8 is self-synchronising, so "is a substring of" on the encodings is
      "is a substring of" on the texts.
    - Calls into the outside world (chat platform, file system, generative
      model) are answered by a [world]; a handler is a function of the world
      that yields the list of calls it made and how it ended. *)

From Stdlib Require Import List Bool Arith ZArith Lia.
From Stdlib Require Import Strings.Ascii Strings.String Numbers.DecimalString.
Import ListNotations.

Local Open Scope string_scope.

(** ** Python values that reach an f-string *)

Module Py.

(** [message.text] is [Optional[str]]: the handler passes it on unchecked. *)
Inductive value : Type :=
| None_
| Str (s : string).

(** [format(v, "")], what [f"{v}"] produces. *)
Definition fmt (v : value) : string :=
  match v with
  | None_ => "None"
  | Str s => s
  end.

(** Decimal rendering of an [int]. *)
Definition fmt_int (z : Z) : string := NilZero.string_of_int (Z.to_int z).

(** Truthiness of an optional string ([not x] is its negation). *)
Definition truthy (o : option string) : bool :=
  match o with
  | None => false
  | Some s => negb (String.eqb s "")
  end.

Definition nl : string := String (ascii_of_nat 10) EmptyString.
Definition cr : ascii := ascii_of_nat 13.
Definition lf : ascii := ascii_of_nat 10.

End Py.

(** ** The prompt of [ask_gemini] (lines 73-83) *)

Definition PROMPT_INSTRUCTION : string :=
  "Ти — Асистент кафедри комп’ютерних наук. " ++
  "Твоє завдання — чітко та лаконічно відповідати на питання студентів та абітурієнтів, " ++
  "спираючись на надану тобі довідкову інформацію. " ++
  "У випадку, якщо питання не містить інформації з довідки,  ввічиливо повідомляй про це. " ++
  "Відпові надавай тільки українською мовою." ++ Py.nl ++ Py.nl.

Definition PROMPT_REFERENCE_OPEN : string :=
  "--- Довідкова інформація ---" ++ Py.nl.

Definition PROMPT_REFERENCE_CLOSE : string :=
  "--- Кінець довідкової інформації ---" ++ Py.nl ++ Py.nl.

Definition PROMPT_QUESTION_LABEL : string := "Питання користувача: ".

(** The parenthesised expression bound to [prompt]: adjacent literals are
    concatenated, [{reference}] and [{question}] are formatted in place. *)
Definition compose_prompt (question : Py.value) (reference : string) : string :=
  PROMPT_INSTRUCTION ++
  PROMPT_REFERENCE_OPEN ++
  (reference ++ Py.nl) ++
  PROMPT_REFERENCE_CLOSE ++
  (PROMPT_QUESTION_LABEL ++ Py.fmt question).

(** [needle] occurs in [hay] as a contiguous run of characters. *)
Definition occurs_in (needle hay : string) : Prop :=
  exists before after, hay = before ++ needle ++ after.

(** Executable counterpart, by scanning every suffix. *)
Fixpoint occurs_inb (needle hay : string) : bool :=
  String.prefix needle hay ||
  match hay with
  | EmptyString => false
  | String _ rest => occurs_inb needle rest
  end.

(** ** Exceptions *)

(** The classes that can reach the handlers.  The last three derive from
    [BaseException] only, so [except Exception] lets them through. *)
Inductive exn_class : Type :=
| FileNotFoundError
| PermissionError
| IsADirectoryError
| UnicodeDecodeError
| ValueError
| TelegramAPIError
| TelegramNetworkError
| GoogleAPIError
| UserException (name : string)
| CancelledError
| KeyboardInterrupt
| SystemExit.

Record exn : Type := mkExn { exn_class_of : exn_class; exn_str : string }.

(** [isinstance(e, Exception)] *)
Definition isinstance_Exception (e : exn) : bool :=
  match exn_class_of e with
  | CancelledError | KeyboardInterrupt | SystemExit => false
  | _ => true
  end.

(** [isinstance(e, FileNotFoundError)] *)
Definition isinstance_FileNotFoundError (e : exn) : bool :=
  match exn_class_of e with
  | FileNotFoundError => true
  | _ => false
  end.

(** [isinstance(e, asyncio.CancelledError)] *)
Definition isinstance_CancelledError (e : exn) : bool :=
  match exn_class_of e with
  | CancelledError => true
  | _ => false
  end.

(** [isinstance(e, KeyboardInterrupt)] *)
Definition isinstance_KeyboardInterrupt (e : exn) : bool :=
  match exn_class_of e with
  | KeyboardInterrupt => true
  | _ => false
  end.

Inductive outcome (A : Type) : Type :=
| Ok (a : A)
| Raise (e : exn).
Arguments Ok {A} a.
Arguments Raise {A} e.

(** ** The file system as [load_reference] sees it *)

(** What the process finds at a path.  [Absent] is the answer of a failed
    [os.stat]: nothing is there, or what is there cannot be reached (see
    [disk_entry] below). *)
Inductive fs_entry : Type :=
| Absent
| Directory
| Regular (readable : bool) (content : list Byte.byte).

Module Utf8.

(** Strict UTF-8 as the [utf-8] codec accepts it: no overlong forms, no
    surrogates, nothing above U+10FFFF.  [Expect n lo hi]: [n] continuation
    bytes are still due, the next one within [lo..hi]. *)
Inductive state : Type :=
| Expect (n : nat) (lo hi : N).

Definition start : state := Expect 0 0 0.

Definition within (lo hi b : N) : bool := (N.leb lo b && N.leb b hi)%bool.

Definition lead (b : N) : option state :=
  if within 0 127 b then Some start
  else if within 194 223 b then Some (Expect 1 128 191)
  else if N.eqb b 224 then Some (Expect 2 160 191)
  else if within 225 236 b then Some (Expect 2 128 191)
  else if N.eqb b 237 then Some (Expect 2 128 159)
  else if within 238 239 b then Some (Expect 2 128 191)
  else if N.eqb b 240 then Some (Expect 3 144 191)
  else if within 241 243 b then Some (Expect 3 128 191)
  else if N.eqb b 244 then Some (Expect 3 128 143)
  else None.

Definition step (st : state) (b : Byte.byte) : option state :=
  match st with
  | Expect 0 _ _ => lead (Byte.to_N b)
  | Expect (S n) lo hi =>
      if within lo hi (Byte.to_N b) then Some (Expect n 128 191) else None
  end.

Fixpoint run (st : state) (bs : list Byte.byte) : bool :=
  match bs with
  | [] => match st with Expect 0 _ _ => true | _ => false end
  | b :: rest =>
      match step st b with
      | Some st' => run st' rest
      | None => false
      end
  end.

Definition valid (bs : list Byte.byte) : bool := run start bs.

(** Decoding keeps the bytes: a [str] is held by its encoding. *)
Definition decode (bs : list Byte.byte) : option string :=
  if valid bs then Some (string_of_list_byte bs) else None.

End Utf8.

(** Text-mode reading with [newline=None]: CR LF and a lone CR both come out
    as LF.  [after_cr] says the previous character was a CR. *)
Fixpoint universal_newlines (after_cr : bool) (s : string) : string :=
  match s with
  | EmptyString => EmptyString
  | String c rest =>
      if Ascii.eqb c Py.cr then String Py.lf (universal_newlines true rest)
      else if (Ascii.eqb c Py.lf && after_cr)%bool then universal_newlines false rest
      else String c (universal_newlines false rest)
  end.

Fixpoint has_cr (s : string) : bool :=
  match s with
  | EmptyString => false
  | String c rest => (Ascii.eqb c Py.cr || has_cr rest)%bool
  end.

(** [open(path, "r", encoding="utf-8").read()] on an existing entry. *)
Definition read_text (entry : fs_entry) : outcome string :=
  match entry with
  | Absent => Raise (mkExn FileNotFoundError "No such file or directory")
  | Directory => Raise (mkExn IsADirectoryError "Is a directory")
  | Regular false _ => Raise (mkExn PermissionError "Permission denied")
  | Regular true content =>
      match Utf8.decode content with
      | Some s => Ok (universal_newlines false s)
      | None => Raise (mkExn UnicodeDecodeError "'utf-8' codec can't decode")
      end
  end.

(** ** What is on disk and what the existence test finds *)

(** On disk an entry may be there and still be out of reach: [os.stat] fails
    with EACCES when a directory on the way to it may not be searched. *)
Record disk_entry : Type := mkDisk {
  held : fs_entry;        (* what is at the path, [Absent] for nothing *)
  searchable : bool       (* may the directories leading to it be searched *)
}.

(** [os.stat(path)] *)
Definition os_stat (d : disk_entry) : outcome unit :=
  if searchable d
  then match held d with
       | Absent => Raise (mkExn FileNotFoundError "No such file or directory")
       | _ => Ok tt
       end
  else Raise (mkExn PermissionError "Permission denied").

(** [os.path.exists], that is [genericpath.exists]:
    [try: os.stat(path) / except (OSError, ValueError): return False]. *)
Definition genericpath_exists (d : disk_entry) : bool :=
  match os_stat d with
  | Ok _ => true
  | Raise _ => false
  end.

(** What the process finds at the path: an entry that [os.stat] cannot reach
    is as good as none. *)
Definition seen (d : disk_entry) : fs_entry :=
  if genericpath_exists d then held d else Absent.


(** ** The outside world and the calls a handler makes *)

Inductive parse_mode : Type :=
| HTML        (* the bot's default, [DefaultBotProperties(parse_mode="HTML")] *)
| Markdown.

Inductive log_level : Type := INFO | ERROR | CRITICAL.

(** One entry per call that leaves the handler, in program order. *)
Inductive call : Type :=
| Logging (level : log_level) (msg : string)
| SendChatAction (chat_id : Z) (action : string)
| PathExists (path : string)
| OpenRead (path : string)
| GenerateContent (prompt : string)
| Answer (chat_id : Z) (text : string) (mode : parse_mode)
| DeleteWebhook (drop_pending_updates : bool)
| StartPolling
| UnhandledError (e : exn)
| Print (line : string).

(** How the world answers while one update is being handled. *)
Record world : Type := mkWorld {
  fs : string -> fs_entry;
  chat_action_result : option exn;                       (* [None]: accepted *)
  answer_result : string -> parse_mode -> option exn;    (* [None]: delivered *)
  generate_content : string -> outcome string            (* [result.text] or the error *)
}.

(** A computation reads the world, records its calls and returns or raises. *)
Definition M (A : Type) : Type := world -> list call * outcome A.

Definition ret {A} (a : A) : M A := fun _ => ([], Ok a).

Definition raise {A} (e : exn) : M A := fun _ => ([], Raise e).

Definition bind {A B} (m : M A) (k : A -> M B) : M B :=
  fun w =>
    match m w with
    | (t1, Ok a) => let (t2, r) := k a w in ((t1 ++ t2)%list, r)
    | (t1, Raise e) => (t1, Raise e)
    end.

(** [try: body / except <catches> as e: handler e] *)
Definition try_except {A} (body : M A) (catches : exn -> bool) (handler : exn -> M A) : M A :=
  fun w =>
    match body w with
    | (t1, Ok a) => (t1, Ok a)
    | (t1, Raise e) =>
        if catches e
        then let (t2, r) := handler e w in ((t1 ++ t2)%list, r)
        else (t1, Raise e)
    end.

Declare Scope py_scope.
Delimit Scope py_scope with py.
Notation "x <- m ;; k" := (bind m (fun x => k))
  (at level 61, m at next level, right associativity) : py_scope.
Notation "m ;; k" := (bind m (fun _ => k))
  (at level 61, right associativity) : py_scope.
Local Open Scope py_scope.

Definition of_option (o : option exn) : outcome unit :=
  match o with
  | None => Ok tt
  | Some e => Raise e
  end.

Definition logging (level : log_level) (msg : string) : M unit :=
  fun _ => ([Logging level msg], Ok tt).

(** [os.path.exists(path)]: false exactly when [os.stat] failed, for which
    [Absent] stands ([genericpath_exists] on a [disk_entry] that is [seen]). *)
Definition os_path_exists (path : string) : M bool :=
  fun w => ([PathExists path],
            Ok match fs w path with Absent => false | _ => true end).

Definition open_read (path : string) : M string :=
  fun w => ([OpenRead path], read_text (fs w path)).

Definition generate_content_async (prompt : string) : M string :=
  fun w => ([GenerateContent prompt], generate_content w prompt).

(** ** Messages *)

Record User : Type := mkUser { id : Z; full_name : string }.

(** A [message] update always carries its sender and chat; [text] is absent
    for stickers, photos and the like, which may carry a [caption]. *)
Record Message : Type := mkMessage {
  from_user : User;
  chat_id : Z;
  text : option string;
  caption : option string
}.

Definition message_text (message : Message) : Py.value :=
  match text message with
  | None => Py.None_
  | Some s => Py.Str s
  end.

Definition bot_send_chat_action (chat : Z) (action : string) : M unit :=
  fun w => ([SendChatAction chat action], of_option (chat_action_result w)).

(** [message.answer(text, parse_mode=mode)] *)
Definition message_answer (message : Message) (body : string) (mode : parse_mode) : M unit :=
  fun w => ([Answer (chat_id message) body mode], of_option (answer_result w body mode)).

(** ** [load_reference] and [ask_gemini] *)

Definition FAQ_PATH : string := "FAQ.txt".

Definition not_found_text (file_path : string) : string :=
  "Файл '" ++ file_path ++ "' не знайдено.".

Definition load_reference (file_path : string) : M string :=
  found <- os_path_exists file_path ;;
  if negb found
  then raise (mkExn FileNotFoundError (not_found_text file_path))
  else open_read file_path.

Definition ask_gemini (question : Py.value) (reference : string) : M string :=
  let prompt := compose_prompt question reference in
  generate_content_async prompt.

(** ** The handlers *)

Definition GREETING : string :=
  "Привіт! Я - асистент кафедри комп’ютерних наук." ++ Py.nl ++ Py.nl ++
  "Чим можу допомогти? Напишіть своє питання".

Definition MISSING_FILE : string :=
  "Файл `FAQ.txt`. Будь ласка, перевірте його наявність.".

Definition GENERIC_FAILURE : string :=
  "Виникла помилка при обробці вашого запиту. Спробуйте ще раз пізніше.".

(** The f-strings handed to [logging]. *)
Definition log_start (message : Message) : string :=
  "Користувач " ++ Py.fmt_int (id (from_user message)) ++ " (" ++
  full_name (from_user message) ++ ") запустив бота командою /start.".

Definition log_received (message : Message) : string :=
  "Отримано повідомлення від " ++ Py.fmt_int (id (from_user message)) ++
  ": '" ++ Py.fmt (message_text message) ++ "'".

Definition log_answered (message : Message) : string :=
  "Надано відповідь для " ++ Py.fmt_int (id (from_user message)) ++ ".".

Definition log_gemini_error (message : Message) (e : exn) : string :=
  "Помилка Gemini API " ++ Py.fmt_int (id (from_user message)) ++ ": " ++ exn_str e.

Definition handle_start (message : Message) : M unit :=
  logging INFO (log_start message) ;;
  message_answer message GREETING HTML.

(** The first [try] either binds [reference_text] or replies and returns:
    [None] stands for that early [return]. *)
Definition handle_text (message : Message) : M unit :=
  logging INFO (log_received message) ;;
  bot_send_chat_action (chat_id message) "typing" ;;
  loaded <- try_except
              (reference_text <- load_reference FAQ_PATH ;; ret (Some reference_text))
              isinstance_FileNotFoundError
              (fun err =>
                 logging ERROR (exn_str err) ;;
                 message_answer message MISSING_FILE HTML ;;
                 ret None) ;;
  match loaded with
  | None => ret tt
  | Some reference_text =>
      try_except
        (answer <- ask_gemini (message_text message) reference_text ;;
         message_answer message answer Markdown ;;
         logging INFO (log_answered message))
        isinstance_Exception
        (fun e =>
           logging ERROR (log_gemini_error message e) ;;
           message_answer message GENERIC_FAILURE HTML)
  end.

(** ** The dispatcher *)

Inductive handler_id : Type := HandleStart | HandleText.

Definition run_handler (h : handler_id) : Message -> M unit :=
  match h with
  | HandleStart => handle_start
  | HandleText => handle_text
  end.

(** [@dp.message(Command("start"))] then [@dp.message()], in registration
    order.  The command filter belongs to the bot framework and is a
    parameter here. *)
Definition registered (command_start : Message -> bool)
  : list ((Message -> bool) * handler_id) :=
  [ (command_start, HandleStart); ((fun _ => true), HandleText) ].

(** The framework calls the first handler whose filter accepts the message. *)
Fixpoint first_match (hs : list ((Message -> bool) * handler_id)) (message : Message)
  : option handler_id :=
  match hs with
  | [] => None
  | (accepts, h) :: rest =>
      if accepts message then Some h else first_match rest message
  end.

Definition route (command_start : Message -> bool) (message : Message) : option handler_id :=
  first_match (registered command_start) message.

Definition feed_update (command_start : Message -> bool) (message : Message) : M unit :=
  match route command_start message with
  | Some h => run_handler h message
  | None => ret tt
  end.

(** A model of the framework's [Command] filter with the default prefix, for
    ASCII text: blanks and letter case outside ASCII are not covered.  It
    only serves to run the dispatcher on concrete messages; every theorem
    about routing is stated for an arbitrary filter. *)
Module CommandFilter.

Definition is_space (c : ascii) : bool :=
  let n := nat_of_ascii c in
  ((9 <=? n) && (n <=? 13) || (28 <=? n) && (n <=? 32))%bool%nat.

Fixpoint lstrip (s : string) : string :=
  match s with
  | EmptyString => EmptyString
  | String c rest => if is_space c then lstrip rest else s
  end.

Fixpoint until_space (s : string) : string :=
  match s with
  | EmptyString => EmptyString
  | String c rest => if is_space c then EmptyString else String c (until_space rest)
  end.

(** [text.split(maxsplit=1)[0]], empty when there is no word at all. *)
Definition first_word (s : string) : string := until_space (lstrip s).

(** [s.partition("@")] without the separator. *)
Fixpoint partition_at (s : string) : string * string :=
  match s with
  | EmptyString => (EmptyString, EmptyString)
  | String c rest =>
      if Ascii.eqb c "@" then (EmptyString, rest)
      else let (a, b) := partition_at rest in (String c a, b)
  end.

Definition lower_ascii (c : ascii) : ascii :=
  let n := nat_of_ascii c in
  if ((65 <=? n) && (n <=? 90))%bool%nat then ascii_of_nat (n + 32) else c.

Fixpoint lower (s : string) : string :=
  match s with
  | EmptyString => EmptyString
  | String c rest => String (lower_ascii c) (lower rest)
  end.

(** [message.text or message.caption] *)
Definition text_or_caption (message : Message) : option string :=
  if Py.truthy (text message) then text message else caption message.

Definition mention_ok (me_username : option string) (mention : string) : bool :=
  match me_username with
  | Some me =>
      if (negb (String.eqb mention "") && negb (String.eqb me ""))%bool
      then String.eqb (lower mention) (lower me)
      else true
  | None => true
  end.

Definition Command (command : string) (me_username : option string)
           (message : Message) : bool :=
  match text_or_caption message with
  | None => false
  | Some t =>
      match first_word t with
      | EmptyString => false
      | String prefix full =>
          let (name, mention) := partition_at full in
          (Ascii.eqb prefix "/" && mention_ok me_username mention
           && String.eqb name command)%bool
      end
  end.

End CommandFilter.

(** ** Start-up and polling *)

Definition ENV_TELEGRAM_TOKEN : string := "TELEGRAM_TOKEN".
Definition ENV_GEMINI_API_KEY : string := "GEMINI_API_KEY".

Definition MISSING_TOKENS_LOG : string :=
  "Не вдалося знайти TELEGRAM_TOKEN або GEMINI_API_KEY у змінних середовища.".

Definition MISSING_TOKENS_EXIT : string :=
  "Помилка: Відсутні необхідні токени. Перевірте файл .env або змінні середовища.".

(** What one run of the script meets: the environment once [load_dotenv] has
    run, the platform's answer to [delete_webhook], and the updates that
    polling would deliver, each with the world at the time it is handled. *)
Record process : Type := mkProcess {
  environ : string -> option string;
  delete_webhook_result : option exn;
  updates : list (world * Message)
}.

(** [if not TELEGRAM_TOKEN or not GEMINI_API_KEY] *)
Definition credentials_missing (getenv : string -> option string) : bool :=
  (negb (Py.truthy (getenv ENV_TELEGRAM_TOKEN))
   || negb (Py.truthy (getenv ENV_GEMINI_API_KEY)))%bool.

(** [dp.start_polling], for the updates delivered until the process is told
    to stop, in the schedule where each handler has finished before the next
    update is taken up.  (The framework runs one task per update, so the
    calls of handlers that overlap in time may interleave; nothing below
    depends on their order.)  An [Exception] leaving a handler is reported
    by the framework and a cancellation ends that update's task only:
    polling goes on.  An interrupt or [SystemExit] leaves the event loop. *)
Fixpoint start_polling (command_start : Message -> bool) (us : list (world * Message))
  : list call * outcome unit :=
  match us with
  | [] => ([], Ok tt)
  | (w, message) :: rest =>
      match feed_update command_start message w with
      | (t, Ok _) =>
          let (t', r) := start_polling command_start rest in ((t ++ t')%list, r)
      | (t, Raise e) =>
          if isinstance_Exception e
          then let (t', r) := start_polling command_start rest in
               ((t ++ UnhandledError e :: t')%list, r)
          else if isinstance_CancelledError e
          then let (t', r) := start_polling command_start rest in ((t ++ t')%list, r)
          else (t, Raise e)
      end
  end.

Definition main (command_start : Message -> bool) (p : process) : list call * outcome unit :=
  match delete_webhook_result p with
  | Some e => ([DeleteWebhook true], Raise e)
  | None =>
      let (t, r) := start_polling command_start (updates p) in
      ((DeleteWebhook true :: Logging INFO "Бот запускається..." :: StartPolling :: t)%list, r)
  end.

(** The credential check of lines 51-53 followed by the guarded
    [asyncio.run(main())] of lines 131-136: the script when nothing in
    between raises.  [run_module] below puts lines 55-60 and 128-129 back. *)
Definition run_script (command_start : Message -> bool) (p : process)
  : list call * outcome unit :=
  if credentials_missing (environ p)
  then ([Logging CRITICAL MISSING_TOKENS_LOG], Raise (mkExn SystemExit MISSING_TOKENS_EXIT))
  else
    match main command_start p with
    | (t, Ok _) => (t, Ok tt)
    | (t, Raise e) =>
        if isinstance_KeyboardInterrupt e
        then ((t ++ [Logging INFO "Роботу бота зупинено вручну."])%list, Ok tt)
        else if isinstance_Exception e
        then ((t ++ [Logging CRITICAL ("Помилка під час запуску: " ++ exn_str e)])%list, Ok tt)
        else (t, Raise e)
    end.

(** *** The whole module body *)

(** [try: asyncio.run(main()) / except KeyboardInterrupt / except Exception] *)
Definition guarded_main (command_start : Message -> bool) (p : process)
  : list call * outcome unit :=
  match main command_start p with
  | (t, Ok _) => (t, Ok tt)
  | (t, Raise e) =>
      if isinstance_KeyboardInterrupt e
      then ((t ++ [Logging INFO "Роботу бота зупинено вручну."])%list, Ok tt)
      else if isinstance_Exception e
      then ((t ++ [Logging CRITICAL ("Помилка під час запуску: " ++ exn_str e)])%list, Ok tt)
      else (t, Raise e)
  end.

(** What the statements between the credential check and the [try] meet:
    the constructors of lines 55-60 may raise ([Bot(token=...)] checks the
    shape of the token and refuses a malformed one), [os.getcwd()] may fail,
    [print] may fail on the console, and [os.path.isfile] looks at the file
    system. *)
Record launch : Type := mkLaunch {
  launched : process;
  clients_init : string -> string -> option exn;
                          (* for the token and the API key; [None]: all built *)
  getcwd : outcome string;
  startup_fs : string -> fs_entry;
  stdout_result : string -> option exn  (* [None]: the line is written *)
}.

(** [os.path.isfile(path)] *)
Definition os_path_isfile (entry : fs_entry) : bool :=
  match entry with
  | Regular _ _ => true
  | _ => false
  end.

(** [str(b)] for a [bool] *)
Definition fmt_bool (b : bool) : string := if b then "True" else "False".

Definition cwd_line (cwd : string) : string := "Поточна робоча директорія: " ++ cwd.

Definition isfile_line (l : launch) : string :=
  "Файл FAQ.txt існує: " ++ fmt_bool (os_path_isfile (startup_fs l FAQ_PATH)).

(** Lines 51-60 and 128-129: everything the module runs outside the [try]. *)
Definition module_preamble (l : launch) : list call * outcome unit :=
  if credentials_missing (environ (launched l))
  then ([Logging CRITICAL MISSING_TOKENS_LOG], Raise (mkExn SystemExit MISSING_TOKENS_EXIT))
  else
    match match environ (launched l) ENV_TELEGRAM_TOKEN,
                environ (launched l) ENV_GEMINI_API_KEY with
          | Some token, Some key => clients_init l token key
          | _, _ => None
          end
    with
    | Some e => ([], Raise e)
    | None =>
        match getcwd l with
        | Raise e => ([], Raise e)
        | Ok cwd =>
            match stdout_result l (cwd_line cwd) with
            | Some e => ([Print (cwd_line cwd)], Raise e)
            | None =>
                ([Print (cwd_line cwd); Print (isfile_line l)],
                 of_option (stdout_result l (isfile_line l)))
            end
        end
    end.

(** The module run as a script. *)
Definition run_module (command_start : Message -> bool) (l : launch)
  : list call * outcome unit :=
  match module_preamble l with
  | (t, Ok _) =>
      let (t', r) := guarded_main command_start (launched l) in ((t ++ t')%list, r)
  | (t, Raise e) => (t, Raise e)
  end.

(** ** Reading a trace *)

Definition is_answer (c : call) : bool :=
  match c with Answer _ _ _ => true | _ => false end.

Definition is_upstream (c : call) : bool :=
  match c with GenerateContent _ => true | _ => false end.

Definition is_file_access (c : call) : bool :=
  match c with PathExists _ | OpenRead _ => true | _ => false end.

Definition is_polling (c : call) : bool :=
  match c with StartPolling => true | _ => false end.

(** The replies a handler tried to send, in order. *)
Definition replies (t : list call) : list (string * parse_mode) :=
  flat_map (fun c => match c with Answer _ body mode => [(body, mode)] | _ => [] end) t.

(** Those of them the platform accepted. *)
Definition delivered (w : world) (t : list call) : list (string * parse_mode) :=
  filter (fun r => match answer_result w (fst r) (snd r) with None => true | Some _ => false end)
         (replies t).

Definition upstream_calls (t : list call) : list string :=
  flat_map (fun c => match c with GenerateContent prompt => [prompt] | _ => [] end) t.

Definition file_accesses (t : list call) : list call := filter is_file_access t.

Definition trace_of {A} (r : list call * outcome A) : list call := fst r.
Definition result_of {A} (r : list call * outcome A) : outcome A := snd r.

(** Handling the update put exactly one reply into the chat. *)
Definition exactly_one_reply (command_start : Message -> bool) (message : Message)
           (w : world) : Prop :=
  exists r, delivered w (trace_of (feed_update command_start message w)) = [r].

(** The platform takes the typing indicator and the three fixed notices. *)
Definition platform_accepts (w : world) : Prop :=
  chat_action_result w = None /\
  forall body, In body [GREETING; MISSING_FILE; GENERIC_FAILURE] ->
               answer_result w body HTML = None.

(** No call is cut short by a cancellation or an interrupt: what the upstream
    call or a send raises is an instance of [Exception]. *)
Definition only_errors (w : world) : Prop :=
  (forall prompt e, generate_content w prompt = Raise e -> isinstance_Exception e = true) /\
  (forall body mode e, answer_result w body mode = Some e -> isinstance_Exception e = true).

(** Reading the reference file works or fails with file-not-found. *)
Definition reference_loads_or_is_missing (w : world) : Prop :=
  forall e, read_text (fs w FAQ_PATH) = Raise e -> isinstance_FileNotFoundError e = true.

(** ** Concrete updates and worlds *)

Module Sample.

Definition command_start : Message -> bool :=
  CommandFilter.Command "start" (Some "GrinchBot").

Definition alice : User := mkUser 5012345678 "Аліса".

Definition start : Message := mkMessage alice 5012345678 (Some "/start") None.

Definition question : Message :=
  mkMessage alice 5012345678 (Some "When are office hours?") None.

(** A sticker: neither text nor caption. *)
Definition sticker : Message := mkMessage alice 5012345678 None None.

Definition only (entry : fs_entry) : string -> fs_entry :=
  fun path => if String.eqb path FAQ_PATH then entry else Absent.

Definition office_hours : string := "Office hours: Mon-Fri 9-5.".

Definition stub_answer : string := "Office hours are Monday to Friday, 9 to 5.".

Definition accept_all : string -> parse_mode -> option exn := fun _ _ => None.

Definition markup_rejected : exn :=
  mkExn TelegramAPIError "Bad Request: can't parse entities".

Definition reject_markdown : string -> parse_mode -> option exn :=
  fun _ mode => match mode with Markdown => Some markup_rejected | HTML => None end.

Definition quota : exn := mkExn GoogleAPIError "429 Resource has been exhausted".

Definition with_file (entry : fs_entry) : world :=
  mkWorld (only entry) None accept_all (fun _ => Ok stub_answer).

Definition healthy : world :=
  with_file (Regular true (list_byte_of_string office_hours)).

Definition no_file : world := with_file Absent.

Definition unreadable : world :=
  with_file (Regular false (list_byte_of_string office_hours)).

Definition crlf_text : string :=
  "Mon-Fri" ++ String Py.cr (String Py.lf "9-5").

Definition crlf_file : world :=
  with_file (Regular true (list_byte_of_string crlf_text)).

Definition upstream_down : world :=
  mkWorld (only (Regular true (list_byte_of_string office_hours)))
          None accept_all (fun _ => Raise quota).

Definition markdown_refused : world :=
  mkWorld (only (Regular true (list_byte_of_string office_hours)))
          None reject_markdown (fun _ => Ok stub_answer).

(** The reference file, in place, in a directory that may not be searched. *)
Definition hidden_faq : disk_entry :=
  mkDisk (Regular true (list_byte_of_string office_hours)) false.

Definition visible_faq : disk_entry :=
  mkDisk (Regular true (list_byte_of_string office_hours)) true.

Definition crlf_faq : disk_entry :=
  mkDisk (Regular true (list_byte_of_string crlf_text)) true.

Definition no_env : string -> option string := fun _ => None.

Definition only_token : string -> option string :=
  fun name => if String.eqb name ENV_TELEGRAM_TOKEN then Some "123:abc" else None.

Definition full_env : string -> option string :=
  fun name =>
    if String.eqb name ENV_TELEGRAM_TOKEN then Some "123:abc"
    else if String.eqb name ENV_GEMINI_API_KEY then Some "key"
    else None.

Definition pending : list (world * Message) :=
  [(healthy, start); (healthy, question)].

End Sample.

(** ** The paths through [handle_text] *)

(** What every run of [handle_text] starts with. *)
Definition opening_calls (message : Message) : list call :=
  [Logging INFO (log_received message); SendChatAction (chat_id message) "typing"].

(** The calls up to and including the upstream request. *)
Definition asking_calls (message : Message) (reference : string) : list call :=
  (opening_calls message ++
   [PathExists FAQ_PATH; OpenRead FAQ_PATH;
    GenerateContent (compose_prompt (message_text message) reference)])%list.

(** One constructor per way through the two [try] blocks, with what the
    world must have answered for the handler to take it. *)
Inductive text_path (message : Message) (w : world) : list call * outcome unit -> Prop :=
| TypingRefused e :
    chat_action_result w = Some e ->
    text_path message w (opening_calls message, Raise e)
| ReferenceMissing :
    chat_action_result w = None ->
    fs w FAQ_PATH = Absent ->
    text_path message w
      ((opening_calls message ++
        [PathExists FAQ_PATH; Logging ERROR (not_found_text FAQ_PATH);
         Answer (chat_id message) MISSING_FILE HTML])%list,
       of_option (answer_result w MISSING_FILE HTML))
| ReadFailed e :
    chat_action_result w = None ->
    read_text (fs w FAQ_PATH) = Raise e ->
    isinstance_FileNotFoundError e = false ->
    text_path message w
      ((opening_calls message ++ [PathExists FAQ_PATH; OpenRead FAQ_PATH])%list, Raise e)
| UpstreamFailed reference e :
    chat_action_result w = None ->
    read_text (fs w FAQ_PATH) = Ok reference ->
    generate_content w (compose_prompt (message_text message) reference) = Raise e ->
    isinstance_Exception e = true ->
    text_path message w
      ((asking_calls message reference ++
        [Logging ERROR (log_gemini_error message e);
         Answer (chat_id message) GENERIC_FAILURE HTML])%list,
       of_option (answer_result w GENERIC_FAILURE HTML))
| UpstreamInterrupted reference e :
    chat_action_result w = None ->
    read_text (fs w FAQ_PATH) = Ok reference ->
    generate_content w (compose_prompt (message_text message) reference) = Raise e ->
    isinstance_Exception e = false ->
    text_path message w (asking_calls message reference, Raise e)
| Answered reference answer :
    chat_action_result w = None ->
    read_text (fs w FAQ_PATH) = Ok reference ->
    generate_content w (compose_prompt (message_text message) reference) = Ok answer ->
    answer_result w answer Markdown = None ->
    text_path message w
      ((asking_calls message reference ++
        [Answer (chat_id message) answer Markdown;
         Logging INFO (log_answered message)])%list,
       Ok tt)
| AnswerRejected reference answer e :
    chat_action_result w = None ->
    read_text (fs w FAQ_PATH) = Ok reference ->
    generate_content w (compose_prompt (message_text message) reference) = Ok answer ->
    answer_result w answer Markdown = Some e ->
    isinstance_Exception e = true ->
    text_path message w
      ((asking_calls message reference ++
        [Answer (chat_id message) answer Markdown;
         Logging ERROR (log_gemini_error message e);
         Answer (chat_id message) GENERIC_FAILURE HTML])%list,
       of_option (answer_result w GENERIC_FAILURE HTML))
| AnswerInterrupted reference answer e :
    chat_action_result w = None ->
    read_text (fs w FAQ_PATH) = Ok reference ->
    generate_content w (compose_prompt (message_text message) reference) = Ok answer ->
    answer_result w answer Markdown = Some e ->
    isinstance_Exception e = false ->
    text_path message w
      ((asking_calls message reference ++ [Answer (chat_id message) answer Markdown])%list,
       Raise e).

Definition is_typing (c : call) : bool :=
  match c with SendChatAction _ _ => true | _ => false end.

(** The same message with another [text]. *)
Definition with_text (message : Message) (t : option string) : Message :=
  mkMessage (from_user message) (chat_id message) t (caption message).

(** What ends the reference block and opens the question in the prompt. *)
Definition PROMPT_SEPARATOR : string :=
  Py.nl ++ PROMPT_REFERENCE_CLOSE ++ PROMPT_QUESTION_LABEL.

(** A text with its line feeds written the DOS way, CR LF. *)
Fixpoint to_crlf (s : string) : string :=
  match s with
  | EmptyString => EmptyString
  | String c rest =>
      if Ascii.eqb c Py.lf then String Py.cr (String Py.lf (to_crlf rest))
      else String c (to_crlf rest)
  end.

(** The same with a lone CR for each line feed. *)
Fixpoint to_cr (s : string) : string :=
  match s with
  | EmptyString => EmptyString
  | String c rest =>
      if Ascii.eqb c Py.lf then String Py.cr (to_cr rest)
      else String c (to_cr rest)
  end.


Arguments log_start : simpl never.
Arguments log_received : simpl never.
Arguments log_answered : simpl never.
Arguments log_gemini_error : simpl never.
Arguments not_found_text : simpl never.
Arguments compose_prompt : simpl never.

(** * Properties *)

(** ** Sanity checks of the embedding on concrete data *)

Example compose_prompt_length :
  String.length (compose_prompt (Py.Str "Q") "R") = 714.
Proof. vm_compute. reflexivity. Qed.

Example fmt_int_decimal : Py.fmt_int 5012345678 = "5012345678".
Proof. reflexivity. Qed.

Example utf8_accepts_cyrillic :
  Utf8.valid (list_byte_of_string "Довідка") = true.
Proof. reflexivity. Qed.

Example utf8_rejects_overlong :
  Utf8.valid [Byte.xc0; Byte.x80] = false.
Proof. reflexivity. Qed.

Example utf8_rejects_truncated :
  Utf8.valid [Byte.xd0] = false.
Proof. reflexivity. Qed.

Example universal_newlines_crlf :
  universal_newlines false (String "a" (String Py.cr (String Py.lf "b")))
  = String "a" (String Py.lf "b").
Proof. reflexivity. Qed.

Example command_start_plain :
  CommandFilter.Command "start" (Some "GrinchBot")
    (mkMessage (mkUser 7 "A") 7 (Some "/start") None) = true.
Proof. reflexivity. Qed.

Example command_start_mention_other_bot :
  CommandFilter.Command "start" (Some "GrinchBot")
    (mkMessage (mkUser 7 "A") 7 (Some "/start@OtherBot hello") None) = false.
Proof. reflexivity. Qed.

Example command_start_in_caption :
  CommandFilter.Command "start" None
    (mkMessage (mkUser 7 "A") 7 None (Some "/start")) = true.
Proof. reflexivity. Qed.

Example command_help_is_free_text :
  route (CommandFilter.Command "start" None)
    (mkMessage (mkUser 7 "A") 7 (Some "/help") None) = Some HandleText.
Proof. reflexivity. Qed.

(** ** Strings *)

Section StringFacts.

Lemma append_assoc (a b c : string) : (a ++ b) ++ c = a ++ (b ++ c).
Proof. induction a as [|x a IH]; simpl; [reflexivity | now rewrite IH]. Qed.

Lemma append_empty_r (a : string) : a ++ "" = a.
Proof. induction a as [|x a IH]; simpl; [reflexivity | now rewrite IH]. Qed.

Lemma prefix_append (a b : string) : String.prefix a (a ++ b) = true.
Proof.
  induction a as [|x a IH]; simpl.
  - now destruct b.
  - destruct (ascii_dec x x) as [_|ne]; [exact IH | now elim ne].
Qed.

Lemma prefix_split (a h : string) :
  String.prefix a h = true -> exists rest, h = a ++ rest.
Proof.
  revert h; induction a as [|x a IH]; intros h Hp.
  - now exists h.
  - destruct h as [|y h]; simpl in Hp; [discriminate|].
    destruct (ascii_dec x y) as [->|_]; [|discriminate].
    destruct (IH h Hp) as [rest ->]. now exists rest.
Qed.

Lemma occurs_in_refl (s : string) : occurs_in s s.
Proof. exists "", "". simpl. now rewrite append_empty_r. Qed.

Lemma occurs_in_append_l (n h pre : string) :
  occurs_in n h -> occurs_in n (pre ++ h).
Proof.
  intros (b & a & ->). exists (pre ++ b), a. now rewrite append_assoc.
Qed.

Lemma occurs_in_append_r (n h post : string) :
  occurs_in n h -> occurs_in n (h ++ post).
Proof.
  intros (b & a & ->). exists b, (a ++ post). now rewrite !append_assoc.
Qed.

(** The scan decides occurrence. *)
Lemma occurs_inb_sound (n h : string) : occurs_inb n h = true -> occurs_in n h.
Proof.
  induction h as [|c h IH]; simpl; intros Hs.
  - rewrite orb_false_r in Hs. destruct n; [apply occurs_in_refl | discriminate].
  - apply orb_true_iff in Hs as [Hp|Hr].
    + destruct (prefix_split n (String c h) Hp) as [rest E].
      exists "", rest. exact E.
    + apply (occurs_in_append_l n h (String c "")). now apply IH.
Qed.

Lemma occurs_inb_complete (n h : string) : occurs_in n h -> occurs_inb n h = true.
Proof.
  intros (b & a & ->). induction b as [|c b IH].
  - simpl. pose proof (prefix_append n a) as Hp.
    destruct (n ++ a); cbn [occurs_inb]; now rewrite Hp.
  - change (String c b ++ n ++ a) with (String c (b ++ n ++ a)).
    cbn [occurs_inb]. rewrite IH. apply orb_true_r.
Qed.

Lemma occurs_inb_iff (n h : string) : occurs_inb n h = true <-> occurs_in n h.
Proof. split; [apply occurs_inb_sound | apply occurs_inb_complete]. Qed.

(** Text-mode reading leaves no carriage return behind. *)
Lemma universal_newlines_no_cr (s : string) (after_cr : bool) :
  has_cr (universal_newlines after_cr s) = false.
Proof.
  revert after_cr; induction s as [|c s IH]; intros after_cr; simpl; [reflexivity|].
  destruct (Ascii.eqb c Py.cr) eqn:Ec.
  - simpl. apply IH.
  - destruct (Ascii.eqb c Py.lf && after_cr)%bool; simpl.
    + apply IH.
    + rewrite Ec. apply IH.
Qed.

(** A text without carriage returns is read back unchanged. *)
Lemma universal_newlines_id (s : string) :
  has_cr s = false -> universal_newlines false s = s.
Proof.
  induction s as [|c s IH]; simpl; [reflexivity|].
  intros H. apply orb_false_iff in H as [Ec Hs].
  rewrite Ec, andb_false_r. now rewrite IH.
Qed.

Lemma universal_newlines_idempotent (s : string) (after_cr : bool) :
  universal_newlines false (universal_newlines after_cr s)
  = universal_newlines after_cr s.
Proof. apply universal_newlines_id, universal_newlines_no_cr. Qed.

End StringFacts.

(** ** Running computations *)

Section Running.

Context {A B : Type}.

Lemma run_bind_ok (m : M A) (k : A -> M B) w t a :
  m w = (t, Ok a) ->
  bind m k w = ((t ++ trace_of (k a w))%list, result_of (k a w)).
Proof. unfold bind, trace_of, result_of. intros ->. now destruct (k a w). Qed.

Lemma run_bind_raise (m : M A) (k : A -> M B) w t e :
  m w = (t, Raise e) -> bind m k w = (t, Raise e).
Proof. unfold bind. now intros ->. Qed.

Lemma run_try_ok (body : M A) catches handler w t a :
  body w = (t, Ok a) -> try_except body catches handler w = (t, Ok a).
Proof. unfold try_except. now intros ->. Qed.

Lemma run_try_caught (body : M A) catches handler w t e :
  body w = (t, Raise e) -> catches e = true ->
  try_except body catches handler w
  = ((t ++ trace_of (handler e w))%list, result_of (handler e w)).
Proof.
  unfold try_except, trace_of, result_of. intros -> ->. now destruct (handler e w).
Qed.

Lemma run_try_escapes (body : M A) catches handler w t e :
  body w = (t, Raise e) -> catches e = false ->
  try_except body catches handler w = (t, Raise e).
Proof. unfold try_except. now intros -> ->. Qed.

End Running.

(** The monad laws, pointwise in the world. *)
Lemma bind_ret_l {A B} (a : A) (k : A -> M B) w : bind (ret a) k w = k a w.
Proof. unfold bind, ret. now destruct (k a w). Qed.

Lemma bind_ret_r {A} (m : M A) w : bind m ret w = m w.
Proof.
  unfold bind, ret. destruct (m w) as [t [a|e]]; [|reflexivity].
  now rewrite app_nil_r.
Qed.

Lemma bind_assoc {A B C} (m : M A) (k : A -> M B) (h : B -> M C) w :
  bind (bind m k) h w = bind m (fun a => bind (k a) h) w.
Proof.
  unfold bind. destruct (m w) as [t1 [a|e]]; [|reflexivity].
  destruct (k a w) as [t2 [b|e]]; [|reflexivity].
  destruct (h b w) as [t3 r]. now rewrite app_assoc.
Qed.

(** ** [load_reference] case by case *)

Lemma load_reference_absent path w :
  fs w path = Absent ->
  load_reference path w
  = ([PathExists path], Raise (mkExn FileNotFoundError (not_found_text path))).
Proof.
  intros H. unfold load_reference, bind, os_path_exists, raise. now rewrite H.
Qed.

Lemma load_reference_present path w :
  fs w path <> Absent ->
  load_reference path w = ([PathExists path; OpenRead path], read_text (fs w path)).
Proof.
  intros H. unfold load_reference, bind, os_path_exists, open_read.
  destruct (fs w path) eqn:E; [now elim H | |]; cbn; now rewrite E.
Qed.

Lemma read_text_ok_present entry s : read_text entry = Ok s -> entry <> Absent.
Proof. intros H ->. discriminate. Qed.

Lemma read_text_other_error_present entry e :
  read_text entry = Raise e -> isinstance_FileNotFoundError e = false ->
  entry <> Absent.
Proof. intros H Hn ->. simpl in H. injection H as <-. discriminate. Qed.

(** The only [FileNotFoundError] comes from the explicit existence test. *)
Lemma read_text_not_found_iff entry :
  (exists e, read_text entry = Raise e /\ isinstance_FileNotFoundError e = true)
  <-> entry = Absent.
Proof.
  split.
  - intros (e & H & He). destruct entry as [| |[|] content]; simpl in H.
    + reflexivity.
    + injection H as <-. discriminate.
    + destruct (Utf8.decode content); [discriminate|]. injection H as <-. discriminate.
    + injection H as <-. discriminate.
  - intros ->. eexists. split; reflexivity.
Qed.

(** ** [handle_text] path by path *)

Section HandleTextPaths.

Variable message : Message.
Variable w : world.

Let opening : list call :=
  [Logging INFO (log_received message); SendChatAction (chat_id message) "typing"].

Lemma handle_text_typing_refused e :
  chat_action_result w = Some e ->
  handle_text message w = (opening, Raise e).
Proof.
  intros H. unfold handle_text, bind, logging, bot_send_chat_action.
  now rewrite H.
Qed.

Hypothesis typing_accepted : chat_action_result w = None.

Lemma handle_text_absent :
  fs w FAQ_PATH = Absent ->
  handle_text message w
  = ((opening ++ [PathExists FAQ_PATH;
                  Logging ERROR (not_found_text FAQ_PATH);
                  Answer (chat_id message) MISSING_FILE HTML])%list,
     of_option (answer_result w MISSING_FILE HTML)).
Proof.
  intros H. unfold handle_text, bind at 1 2 3, logging at 1, bot_send_chat_action.
  rewrite typing_accepted. cbn [of_option].
  erewrite run_try_caught;
    [ | erewrite run_bind_raise; [reflexivity | now apply load_reference_absent]
      | reflexivity ].
  unfold trace_of, result_of, bind, logging, message_answer, ret. cbn [exn_str].
  destruct (answer_result w MISSING_FILE HTML); reflexivity.
Qed.

Lemma handle_text_read_error e :
  read_text (fs w FAQ_PATH) = Raise e ->
  isinstance_FileNotFoundError e = false ->
  handle_text message w
  = ((opening ++ [PathExists FAQ_PATH; OpenRead FAQ_PATH])%list, Raise e).
Proof.
  intros H Hn. unfold handle_text, bind at 1 2 3, logging at 1, bot_send_chat_action.
  rewrite typing_accepted. cbn [of_option].
  erewrite run_try_escapes;
    [ reflexivity
    | erewrite run_bind_raise; [reflexivity|];
      rewrite load_reference_present by (eapply read_text_other_error_present; eauto);
      now rewrite H
    | exact Hn ].
Qed.

(** Once the reference is loaded, what is left is the second [try]. *)
Let second_try (reference_text : string) : M unit :=
  try_except
    (answer <- ask_gemini (message_text message) reference_text ;;
     message_answer message answer Markdown ;;
     logging INFO (log_answered message))
    isinstance_Exception
    (fun e =>
       logging ERROR (log_gemini_error message e) ;;
       message_answer message GENERIC_FAILURE HTML).

Lemma handle_text_loaded reference_text :
  read_text (fs w FAQ_PATH) = Ok reference_text ->
  handle_text message w
  = ((opening ++ [PathExists FAQ_PATH; OpenRead FAQ_PATH]
              ++ trace_of (second_try reference_text w))%list,
     result_of (second_try reference_text w)).
Proof.
  intros H. unfold handle_text, bind at 1 2 3, logging at 1, bot_send_chat_action.
  rewrite typing_accepted. cbn [of_option].
  erewrite run_try_ok.
  2:{ erewrite run_bind_ok.
      2:{ rewrite load_reference_present by (eapply read_text_ok_present; eauto).
          now rewrite H. }
      reflexivity. }
  unfold second_try, trace_of, result_of.
  destruct (try_except _ _ _ w) as [t r]. reflexivity.
Qed.

Variable reference_text : string.
Hypothesis loaded : read_text (fs w FAQ_PATH) = Ok reference_text.

Let prompt : string := compose_prompt (message_text message) reference_text.

Let asked : list call :=
  (opening ++ [PathExists FAQ_PATH; OpenRead FAQ_PATH; GenerateContent prompt])%list.

(** Each path below first evaluates the second [try] under its premises. *)
Local Ltac second_try_is t r :=
  rewrite (handle_text_loaded _ loaded);
  let E := fresh "E" in
  enough (E : second_try reference_text w = (t, r))
    by (rewrite E; reflexivity);
  unfold second_try, try_except, bind, ask_gemini, generate_content_async,
    message_answer, logging;
  fold prompt.

Lemma handle_text_upstream_error e :
  generate_content w prompt = Raise e ->
  isinstance_Exception e = true ->
  handle_text message w
  = ((asked ++ [Logging ERROR (log_gemini_error message e);
                Answer (chat_id message) GENERIC_FAILURE HTML])%list,
     of_option (answer_result w GENERIC_FAILURE HTML)).
Proof.
  intros Hg He.
  second_try_is [GenerateContent prompt;
                 Logging ERROR (log_gemini_error message e);
                 Answer (chat_id message) GENERIC_FAILURE HTML]
                (of_option (answer_result w GENERIC_FAILURE HTML)).
  rewrite Hg, He. now destruct (answer_result w GENERIC_FAILURE HTML).
Qed.

Lemma handle_text_upstream_signal e :
  generate_content w prompt = Raise e ->
  isinstance_Exception e = false ->
  handle_text message w = (asked, Raise e).
Proof.
  intros Hg He.
  second_try_is [GenerateContent prompt] (@Raise unit e).
  now rewrite Hg, He.
Qed.

Lemma handle_text_answered answer :
  generate_content w prompt = Ok answer ->
  answer_result w answer Markdown = None ->
  handle_text message w
  = ((asked ++ [Answer (chat_id message) answer Markdown;
                Logging INFO (log_answered message)])%list,
     Ok tt).
Proof.
  intros Hg Ha.
  second_try_is [GenerateContent prompt;
                 Answer (chat_id message) answer Markdown;
                 Logging INFO (log_answered message)]
                (Ok tt).
  now rewrite Hg, Ha.
Qed.

Lemma handle_text_answer_rejected answer e :
  generate_content w prompt = Ok answer ->
  answer_result w answer Markdown = Some e ->
  isinstance_Exception e = true ->
  handle_text message w
  = ((asked ++ [Answer (chat_id message) answer Markdown;
                Logging ERROR (log_gemini_error message e);
                Answer (chat_id message) GENERIC_FAILURE HTML])%list,
     of_option (answer_result w GENERIC_FAILURE HTML)).
Proof.
  intros Hg Ha He.
  second_try_is [GenerateContent prompt;
                 Answer (chat_id message) answer Markdown;
                 Logging ERROR (log_gemini_error message e);
                 Answer (chat_id message) GENERIC_FAILURE HTML]
                (of_option (answer_result w GENERIC_FAILURE HTML)).
  rewrite Hg, Ha. cbn [of_option]. rewrite He.
  now destruct (answer_result w GENERIC_FAILURE HTML).
Qed.

Lemma handle_text_answer_interrupted answer e :
  generate_content w prompt = Ok answer ->
  answer_result w answer Markdown = Some e ->
  isinstance_Exception e = false ->
  handle_text message w
  = ((asked ++ [Answer (chat_id message) answer Markdown])%list, Raise e).
Proof.
  intros Hg Ha He.
  second_try_is [GenerateContent prompt; Answer (chat_id message) answer Markdown]
                (@Raise unit e).
  rewrite Hg, Ha. cbn [of_option]. now rewrite He.
Qed.

End HandleTextPaths.

(** The scenario of the specification: the stubbed answer goes back verbatim
    and the prompt carries both the reference and the question. *)
Example office_hours_scenario :
  handle_text Sample.question Sample.healthy
  = ([Logging INFO (log_received Sample.question);
      SendChatAction 5012345678 "typing";
      PathExists "FAQ.txt"; OpenRead "FAQ.txt";
      GenerateContent (compose_prompt (Py.Str "When are office hours?") Sample.office_hours);
      Answer 5012345678 Sample.stub_answer Markdown;
      Logging INFO (log_answered Sample.question)],
     Ok tt).
Proof. vm_compute. reflexivity. Qed.

(** ** The prompt *)

(** C2. For every question and reference, the prompt that [ask_gemini] builds
    contains the question and the reference verbatim, and it is a function of
    the two alone: whatever the world, the one upstream call carries exactly
    that prompt. *)
Theorem compose_prompt_embeds_inputs (question reference : string) :
  occurs_in question (compose_prompt (Py.Str question) reference) /\
  occurs_in reference (compose_prompt (Py.Str question) reference) /\
  (forall w1 w2,
      trace_of (ask_gemini (Py.Str question) reference w1)
      = [GenerateContent (compose_prompt (Py.Str question) reference)] /\
      trace_of (ask_gemini (Py.Str question) reference w1)
      = trace_of (ask_gemini (Py.Str question) reference w2)).
Proof.
  unfold compose_prompt. repeat split.
  - do 5 apply occurs_in_append_l. cbn [Py.fmt]. apply occurs_in_refl.
  - do 2 apply occurs_in_append_l. do 2 apply occurs_in_append_r.
    apply occurs_in_refl.
Qed.

(** ** [/start] *)

Lemma handle_start_run message w :
  handle_start message w
  = ([Logging INFO (log_start message); Answer (chat_id message) GREETING HTML],
     of_option (answer_result w GREETING HTML)).
Proof.
  unfold handle_start, bind, logging, message_answer.
  now destruct (answer_result w GREETING HTML).
Qed.

Lemma feed_update_start command_start message :
  command_start message = true ->
  feed_update command_start message = handle_start message.
Proof. intros H. unfold feed_update, route, registered. cbn. now rewrite H. Qed.

Lemma feed_update_text command_start message :
  command_start message = false ->
  feed_update command_start message = handle_text message.
Proof. intros H. unfold feed_update, route, registered. cbn. now rewrite H. Qed.

(** C7. A [/start] command is answered by one reply, the greeting, and the
    handler touches neither the reference file nor the upstream model. *)
Theorem start_command_greets_once (command_start : Message -> bool) message w :
  command_start message = true ->
  replies (trace_of (feed_update command_start message w)) = [(GREETING, HTML)] /\
  file_accesses (trace_of (feed_update command_start message w)) = [] /\
  upstream_calls (trace_of (feed_update command_start message w)) = [].
Proof.
  intros H. rewrite (feed_update_start _ _ H), handle_start_run.
  repeat split.
Qed.

Lemma start_command_greets_once_witness :
  Sample.command_start Sample.start = true /\
  replies (trace_of (feed_update Sample.command_start Sample.start Sample.healthy))
  = [(GREETING, HTML)].
Proof.
  split; [reflexivity|].
  apply (start_command_greets_once Sample.command_start Sample.start Sample.healthy).
  reflexivity.
Defined.

(** ** Free text: the reference file *)

(** C3. With the reference file absent, a free-text update gets one reply,
    the fixed missing-file notice; the upstream model is not called; and that
    reply is the last thing the handler does. *)
Theorem missing_reference_notice message w :
  chat_action_result w = None ->
  fs w FAQ_PATH = Absent ->
  replies (trace_of (handle_text message w)) = [(MISSING_FILE, HTML)] /\
  upstream_calls (trace_of (handle_text message w)) = [] /\
  last (trace_of (handle_text message w)) StartPolling
  = Answer (chat_id message) MISSING_FILE HTML /\
  result_of (handle_text message w) = of_option (answer_result w MISSING_FILE HTML).
Proof.
  intros Htyping Habsent.
  rewrite (handle_text_absent message w Htyping Habsent).
  repeat split.
Qed.

Lemma missing_reference_notice_witness :
  replies (trace_of (handle_text Sample.question Sample.no_file)) = [(MISSING_FILE, HTML)] /\
  result_of (handle_text Sample.question Sample.no_file) = Ok tt.
Proof.
  destruct (missing_reference_notice Sample.question Sample.no_file)
    as (Hr & _ & _ & Hres); [reflexivity | reflexivity |].
  split; [exact Hr | exact Hres].
Defined.

(** C8. When the reference file is there but cannot be read or decoded, the
    error is not one the first [try] catches: it leaves the handler, the
    upstream model is not called and nothing is sent to the chat. *)
Theorem unreadable_reference_escapes message w e :
  chat_action_result w = None ->
  read_text (fs w FAQ_PATH) = Raise e ->
  isinstance_FileNotFoundError e = false ->
  fs w FAQ_PATH <> Absent /\
  result_of (handle_text message w) = Raise e /\
  upstream_calls (trace_of (handle_text message w)) = [] /\
  replies (trace_of (handle_text message w)) = [].
Proof.
  intros Htyping Hread Hother.
  rewrite (handle_text_read_error message w Htyping e Hread Hother).
  split; [eapply read_text_other_error_present; eauto | repeat split].
Qed.

Lemma unreadable_reference_escapes_witness :
  result_of (handle_text Sample.question Sample.unreadable)
  = Raise (mkExn PermissionError "Permission denied") /\
  replies (trace_of (handle_text Sample.question Sample.unreadable)) = [].
Proof.
  destruct (unreadable_reference_escapes Sample.question Sample.unreadable
              (mkExn PermissionError "Permission denied"))
    as (_ & Hres & _ & Hr); [reflexivity | reflexivity | reflexivity |].
  split; [exact Hres | exact Hr].
Defined.

(** Invalid UTF-8 takes the same way out. *)
Example undecodable_reference_escapes :
  result_of (handle_text Sample.question
               (Sample.with_file (Regular true [Byte.xff; Byte.xfe])))
  = Raise (mkExn UnicodeDecodeError "'utf-8' codec can't decode").
Proof. reflexivity. Qed.

(** ** Free text: the upstream call *)

(** The error text stays out of a fixed message it is not already part of. *)
Lemma fixed_reply_hides_text (secret fixed : string) (rs : list (string * parse_mode)) :
  occurs_inb secret fixed = false ->
  (forall body mode, In (body, mode) rs -> body = fixed) ->
  forall body mode, In (body, mode) rs -> ~ occurs_in secret body.
Proof.
  intros Hno Hall body mode Hin Hocc.
  rewrite (Hall body mode Hin) in Hocc.
  apply occurs_inb_complete in Hocc. congruence.
Qed.

(** C4. When the upstream call raises an error, whatever its class among the
    instances of [Exception], the chat gets one reply, the fixed
    generic-failure notice.  The error text goes to the log and to no reply. *)
Theorem upstream_error_generic_reply message w reference e :
  chat_action_result w = None ->
  read_text (fs w FAQ_PATH) = Ok reference ->
  generate_content w (compose_prompt (message_text message) reference) = Raise e ->
  isinstance_Exception e = true ->
  replies (trace_of (handle_text message w)) = [(GENERIC_FAILURE, HTML)] /\
  In (Logging ERROR (log_gemini_error message e)) (trace_of (handle_text message w)) /\
  (forall body mode,
      In (body, mode) (replies (trace_of (handle_text message w))) ->
      body = GENERIC_FAILURE) /\
  (occurs_inb (exn_str e) GENERIC_FAILURE = false ->
   forall body mode,
     In (body, mode) (replies (trace_of (handle_text message w))) ->
     ~ occurs_in (exn_str e) body).
Proof.
  intros Htyping Hread Hup Hexc.
  rewrite (handle_text_upstream_error message w Htyping reference Hread e Hup Hexc).
  assert (Hall : forall body mode,
             In (body, mode) [(GENERIC_FAILURE, HTML)] -> body = GENERIC_FAILURE).
  { intros body mode [Heq|[]]. now inversion Heq. }
  split; [reflexivity|]. split; [|split].
  - cbn. tauto.
  - exact Hall.
  - intros Hno. now apply fixed_reply_hides_text with (fixed := GENERIC_FAILURE).
Qed.

Lemma upstream_error_generic_reply_witness :
  replies (trace_of (handle_text Sample.question Sample.upstream_down))
  = [(GENERIC_FAILURE, HTML)] /\
  (forall body mode,
      In (body, mode) (replies (trace_of (handle_text Sample.question Sample.upstream_down))) ->
      ~ occurs_in (exn_str Sample.quota) body).
Proof.
  destruct (upstream_error_generic_reply Sample.question Sample.upstream_down
              Sample.office_hours Sample.quota)
    as (Hr & _ & _ & Hhide); [reflexivity | reflexivity | reflexivity | reflexivity |].
  split; [exact Hr | apply Hhide; vm_compute; reflexivity].
Defined.

(** C9. The send of the answer sits in the same [try] as the upstream call:
    when the model answered but the platform refuses the answer, the handler
    goes on to send the generic-failure notice, which is then the one reply
    that reaches the chat. *)
Theorem answer_delivery_failure_generic_reply message w reference answer e :
  chat_action_result w = None ->
  read_text (fs w FAQ_PATH) = Ok reference ->
  generate_content w (compose_prompt (message_text message) reference) = Ok answer ->
  answer_result w answer Markdown = Some e ->
  isinstance_Exception e = true ->
  replies (trace_of (handle_text message w))
  = [(answer, Markdown); (GENERIC_FAILURE, HTML)] /\
  last (trace_of (handle_text message w)) StartPolling
  = Answer (chat_id message) GENERIC_FAILURE HTML /\
  (answer_result w GENERIC_FAILURE HTML = None ->
   delivered w (trace_of (handle_text message w)) = [(GENERIC_FAILURE, HTML)] /\
   result_of (handle_text message w) = Ok tt).
Proof.
  intros Htyping Hread Hup Hsend Hexc.
  rewrite (handle_text_answer_rejected message w Htyping reference Hread answer e
             Hup Hsend Hexc).
  split; [reflexivity|]. split; [reflexivity|].
  intros Hok. unfold delivered. cbn. rewrite Hsend, Hok. split; reflexivity.
Qed.

Lemma answer_delivery_failure_generic_reply_witness :
  replies (trace_of (handle_text Sample.question Sample.markdown_refused))
  = [(Sample.stub_answer, Markdown); (GENERIC_FAILURE, HTML)] /\
  delivered Sample.markdown_refused (trace_of (handle_text Sample.question Sample.markdown_refused))
  = [(GENERIC_FAILURE, HTML)].
Proof.
  destruct (answer_delivery_failure_generic_reply Sample.question Sample.markdown_refused
              Sample.office_hours Sample.stub_answer Sample.markup_rejected)
    as (Hr & _ & Hd);
    [reflexivity | reflexivity | reflexivity | reflexivity | reflexivity |].
  split; [exact Hr | apply Hd; reflexivity].
Defined.

(** Once the reference is loaded the upstream model is asked exactly once,
    however the call and the sends after it end. *)
Lemma handle_text_asks_once message w reference :
  chat_action_result w = None ->
  read_text (fs w FAQ_PATH) = Ok reference ->
  upstream_calls (trace_of (handle_text message w))
  = [compose_prompt (message_text message) reference].
Proof.
  intros Htyping Hread.
  destruct (generate_content w (compose_prompt (message_text message) reference))
    as [answer|e] eqn:Hup.
  - destruct (answer_result w answer Markdown) as [e|] eqn:Hsend.
    + destruct (isinstance_Exception e) eqn:Hexc.
      * now rewrite (handle_text_answer_rejected message w Htyping reference Hread
                       answer e Hup Hsend Hexc).
      * now rewrite (handle_text_answer_interrupted message w Htyping reference Hread
                       answer e Hup Hsend Hexc).
    + now rewrite (handle_text_answered message w Htyping reference Hread answer Hup Hsend).
  - destruct (isinstance_Exception e) eqn:Hexc.
    + now rewrite (handle_text_upstream_error message w Htyping reference Hread e Hup Hexc).
    + now rewrite (handle_text_upstream_signal message w Htyping reference Hread e Hup Hexc).
Qed.

(** ** Routing *)

Lemma route_total command_start message :
  route command_start message
  = Some (if command_start message then HandleStart else HandleText).
Proof. unfold route, registered. cbn. now destruct (command_start message). Qed.

(** C10. Whatever the command filter rejects goes to the free-text handler,
    a message without text included; for such a message the whole pipeline
    runs and the question in the prompt sent upstream is the rendering of
    [None], the four letters "None". *)
Theorem absent_text_still_asks (command_start : Message -> bool) message :
  command_start message = false ->
  route command_start message = Some HandleText /\
  (forall w, feed_update command_start message w = handle_text message w) /\
  (text message = None ->
   forall w reference,
     chat_action_result w = None ->
     read_text (fs w FAQ_PATH) = Ok reference ->
     upstream_calls (trace_of (feed_update command_start message w))
     = [compose_prompt Py.None_ reference] /\
     exists head,
       compose_prompt Py.None_ reference = head ++ "Питання користувача: None").
Proof.
  intros Hfree. split; [|split].
  - rewrite route_total. now rewrite Hfree.
  - intros w. now rewrite (feed_update_text _ _ Hfree).
  - intros Hnone w reference Htyping Hread.
    rewrite (feed_update_text _ _ Hfree).
    rewrite (handle_text_asks_once message w reference Htyping Hread).
    unfold message_text. rewrite Hnone. split; [reflexivity|].
    exists (PROMPT_INSTRUCTION ++ PROMPT_REFERENCE_OPEN ++ (reference ++ Py.nl)
            ++ PROMPT_REFERENCE_CLOSE).
    unfold compose_prompt. cbn [Py.fmt]. now rewrite !append_assoc.
Qed.

Lemma absent_text_still_asks_witness :
  Sample.command_start Sample.sticker = false /\
  route Sample.command_start Sample.sticker = Some HandleText /\
  upstream_calls (trace_of (feed_update Sample.command_start Sample.sticker Sample.healthy))
  = [compose_prompt Py.None_ Sample.office_hours].
Proof.
  destruct (absent_text_still_asks Sample.command_start Sample.sticker) as (Hroute & _ & Hask);
    [reflexivity|].
  destruct (Hask eq_refl Sample.healthy Sample.office_hours) as (Hcalls & _);
    [reflexivity | reflexivity |].
  repeat split; assumption.
Defined.

(** With a stubbed model the sticker is answered like any question. *)
Example sticker_gets_an_answer :
  replies (trace_of (feed_update Sample.command_start Sample.sticker Sample.healthy))
  = [(Sample.stub_answer, Markdown)].
Proof. vm_compute. reflexivity. Qed.

(** ** One reply per update *)

(** C1, as stated, fails: the reference file is there but unreadable, every
    call to the platform is accepted, and the free-text update is handled
    without any reply. *)
Lemma unreadable_reference_no_reply :
  route Sample.command_start Sample.question = Some HandleText /\
  replies (trace_of (feed_update Sample.command_start Sample.question Sample.unreadable)) = [] /\
  ~ exactly_one_reply Sample.command_start Sample.question Sample.unreadable.
Proof.
  split; [reflexivity|]. split; [reflexivity|].
  intros [r Hr]. vm_compute in Hr. discriminate Hr.
Qed.

Ltac read_trace :=
  unfold delivered, trace_of, result_of;
  cbn [replies flat_map app filter fst snd of_option].

(** C1, amended. A handled update, [/start] or not, ends in exactly one reply
    delivered to the chat and the handler returns, when reading the reference
    file works or fails with file-not-found, the platform takes the typing
    indicator and the fixed notices, and nothing is cut short by a
    cancellation.  The reply is the greeting, the missing-file notice, the
    generic-failure notice or the text the upstream model returned. *)
Theorem one_reply_when_reference_loads_or_is_missing
        (command_start : Message -> bool) message w :
  reference_loads_or_is_missing w ->
  platform_accepts w ->
  only_errors w ->
  exactly_one_reply command_start message w /\
  result_of (feed_update command_start message w) = Ok tt /\
  exists body mode,
    delivered w (trace_of (feed_update command_start message w)) = [(body, mode)] /\
    (body = GREETING \/ body = MISSING_FILE \/ body = GENERIC_FAILURE \/
     exists reference,
       read_text (fs w FAQ_PATH) = Ok reference /\
       generate_content w (compose_prompt (message_text message) reference) = Ok body).
Proof.
  intros Hload [Htyping Hfixed] [Hup Hsend].
  assert (Hgreet : answer_result w GREETING HTML = None) by (apply Hfixed; cbn; tauto).
  assert (Hmiss : answer_result w MISSING_FILE HTML = None) by (apply Hfixed; cbn; tauto).
  assert (Hgen : answer_result w GENERIC_FAILURE HTML = None) by (apply Hfixed; cbn; tauto).
  enough (exists body mode,
             delivered w (trace_of (feed_update command_start message w)) = [(body, mode)] /\
             result_of (feed_update command_start message w) = Ok tt /\
             (body = GREETING \/ body = MISSING_FILE \/ body = GENERIC_FAILURE \/
              exists reference,
                read_text (fs w FAQ_PATH) = Ok reference /\
                generate_content w (compose_prompt (message_text message) reference)
                = Ok body)) as (body & mode & Hd & Hres & Hkind).
  { split; [now exists (body, mode)|]. split; [exact Hres|]. now exists body, mode. }
  destruct (command_start message) eqn:Hcmd.
  - rewrite (feed_update_start _ _ Hcmd), handle_start_run.
    exists GREETING, HTML. read_trace. rewrite Hgreet. repeat split; auto 6.
  - rewrite (feed_update_text _ _ Hcmd).
    destruct (read_text (fs w FAQ_PATH)) as [reference|e0] eqn:Hread.
    + destruct (generate_content w (compose_prompt (message_text message) reference))
        as [answer|e] eqn:Hgenr.
      * destruct (answer_result w answer Markdown) as [e|] eqn:Hans.
        -- rewrite (handle_text_answer_rejected message w Htyping reference Hread
                      answer e Hgenr Hans (Hsend _ _ _ Hans)).
           exists GENERIC_FAILURE, HTML. read_trace.
           rewrite Hans, Hgen. repeat split; auto 6.
        -- rewrite (handle_text_answered message w Htyping reference Hread answer Hgenr Hans).
           exists answer, Markdown. read_trace. rewrite Hans.
           repeat split. do 3 right. now exists reference.
      * rewrite (handle_text_upstream_error message w Htyping reference Hread e Hgenr
                   (Hup _ _ Hgenr)).
        exists GENERIC_FAILURE, HTML. read_trace. rewrite Hgen. repeat split; auto 6.
    + assert (Habsent : fs w FAQ_PATH = Absent).
      { apply read_text_not_found_iff. exists e0. split; [exact Hread | now apply Hload]. }
      rewrite (handle_text_absent message w Htyping Habsent).
      exists MISSING_FILE, HTML. read_trace. rewrite Hmiss. repeat split; auto 6.
Qed.

Lemma sample_worlds_accept :
  forall entry, platform_accepts (Sample.with_file entry) /\ only_errors (Sample.with_file entry).
Proof.
  intros entry. repeat split; try reflexivity; cbn; intros; discriminate.
Qed.

Lemma one_reply_when_reference_loads_or_is_missing_witness :
  reference_loads_or_is_missing Sample.healthy /\
  platform_accepts Sample.healthy /\
  only_errors Sample.healthy /\
  exactly_one_reply Sample.command_start Sample.question Sample.healthy.
Proof.
  assert (Hload : reference_loads_or_is_missing Sample.healthy).
  { intros e He. vm_compute in He. discriminate He. }
  destruct (sample_worlds_accept (Regular true (list_byte_of_string Sample.office_hours)))
    as [Hacc Herr].
  repeat split; try exact Hload; try apply Hacc; try apply Herr.
  apply (one_reply_when_reference_loads_or_is_missing
           Sample.command_start Sample.question Sample.healthy Hload Hacc Herr).
Defined.

(** ** [load_reference] *)

(** In terms of what the process finds at the path. *)
Lemma load_reference_as_seen path w :
  ((exists e, result_of (load_reference path w) = Raise e /\
              isinstance_FileNotFoundError e = true)
   <-> fs w path = Absent) /\
  (forall e, fs w path <> Absent ->
             result_of (load_reference path w) = Raise e ->
             isinstance_FileNotFoundError e = false) /\
  (forall content decoded,
      fs w path = Regular true content ->
      Utf8.decode content = Some decoded ->
      result_of (load_reference path w) = Ok (universal_newlines false decoded) /\
      (has_cr decoded = false -> result_of (load_reference path w) = Ok decoded)).
Proof.
  split; [|split].
  - split.
    + intros (e & Hres & He).
      destruct (fs w path) eqn:Hentry; [reflexivity | |];
        rewrite load_reference_present in Hres by (rewrite Hentry; discriminate);
        cbn [result_of snd] in Hres;
        (assert (Habs : fs w path = Absent)
          by (apply read_text_not_found_iff; now exists e));
        congruence.
    + intros Habs. rewrite (load_reference_absent _ _ Habs).
      eexists. split; reflexivity.
  - intros e Hpresent Hres.
    rewrite (load_reference_present _ _ Hpresent) in Hres. cbn [result_of snd] in Hres.
    destruct (isinstance_FileNotFoundError e) eqn:He; [|reflexivity].
    elim Hpresent. apply read_text_not_found_iff. now exists e.
  - intros content decoded Hentry Hdec.
    rewrite load_reference_present by (rewrite Hentry; discriminate).
    cbn [result_of snd]. rewrite Hentry. cbn [read_text]. rewrite Hdec.
    split; [reflexivity|]. intros Hcr. now rewrite universal_newlines_id.
Qed.

(** The existence test fails exactly when nothing is at the path or the
    path cannot be searched. *)
Lemma genericpath_exists_false_iff d :
  genericpath_exists d = false <-> held d = Absent \/ searchable d = false.
Proof.
  unfold genericpath_exists, os_stat.
  destruct (searchable d), (held d); cbn; intuition discriminate.
Qed.

Lemma seen_absent_iff d : seen d = Absent <-> genericpath_exists d = false.
Proof.
  unfold seen. destruct (genericpath_exists d) eqn:He; [|tauto].
  split; [|discriminate]. intros Habs.
  assert (Hfalse : genericpath_exists d = false)
    by (apply genericpath_exists_false_iff; now left).
  congruence.
Qed.

Lemma seen_reachable d : searchable d = true -> seen d = held d.
Proof.
  intros Hs. unfold seen, genericpath_exists, os_stat. rewrite Hs.
  now destruct (held d).
Qed.

(** C5, as stated, fails twice.  A readable reference file that sits in a
    directory the process may not search is present, the existence test
    fails on a permission error, and [load_reference] reports the file as
    not found.  And a readable UTF-8 file with a CR LF line ending does not
    come back as its decoded content. *)
Lemma load_reference_not_as_claimed :
  (held Sample.hidden_faq = Regular true (list_byte_of_string Sample.office_hours) /\
   os_stat Sample.hidden_faq = Raise (mkExn PermissionError "Permission denied") /\
   fs (Sample.with_file (seen Sample.hidden_faq)) FAQ_PATH = seen Sample.hidden_faq /\
   exists e,
     result_of (load_reference FAQ_PATH (Sample.with_file (seen Sample.hidden_faq))) = Raise e /\
     isinstance_FileNotFoundError e = true) /\
  (fs Sample.crlf_file FAQ_PATH = Regular true (list_byte_of_string Sample.crlf_text) /\
   Utf8.decode (list_byte_of_string Sample.crlf_text) = Some Sample.crlf_text /\
   result_of (load_reference FAQ_PATH Sample.crlf_file) = Ok ("Mon-Fri" ++ Py.nl ++ "9-5") /\
   result_of (load_reference FAQ_PATH Sample.crlf_file) <> Ok Sample.crlf_text).
Proof.
  split.
  - split; [reflexivity|]. split; [reflexivity|]. split; [reflexivity|].
    eexists. split; reflexivity.
  - split; [reflexivity|]. split; [reflexivity|]. split; [reflexivity|].
    intros H. vm_compute in H. discriminate H.
Qed.

(** C5, amended.  For what is on disk at the path, [load_reference] raises
    [FileNotFoundError] exactly when the existence test fails, that is when
    nothing is there or the path cannot be searched: a file out of reach
    for lack of permission is reported as not found.  Any error raised once
    the existence test has passed (permission to read, a directory, bad
    UTF-8) is of another class.  A reachable, readable file holding valid
    UTF-8 comes back whole, decoded, with CR LF and lone CR turned into LF,
    hence unchanged when it holds no CR. *)
Theorem load_reference_contract path w d :
  fs w path = seen d ->
  ((exists e, result_of (load_reference path w) = Raise e /\
              isinstance_FileNotFoundError e = true)
   <-> genericpath_exists d = false) /\
  (genericpath_exists d = false <-> held d = Absent \/ searchable d = false) /\
  (forall e, genericpath_exists d = true ->
             result_of (load_reference path w) = Raise e ->
             isinstance_FileNotFoundError e = false) /\
  (forall content decoded,
      searchable d = true ->
      held d = Regular true content ->
      Utf8.decode content = Some decoded ->
      result_of (load_reference path w) = Ok (universal_newlines false decoded) /\
      (has_cr decoded = false -> result_of (load_reference path w) = Ok decoded)).
Proof.
  intros Hseen.
  destruct (load_reference_as_seen path w) as (Hnf & Hother & Hread).
  split; [|split; [|split]].
  - rewrite Hnf, Hseen. apply seen_absent_iff.
  - apply genericpath_exists_false_iff.
  - intros e Hexists. apply Hother. rewrite Hseen. intros Habs.
    apply seen_absent_iff in Habs. congruence.
  - intros content decoded Hsearch Hheld. apply Hread.
    now rewrite Hseen, (seen_reachable d Hsearch).
Qed.

Lemma load_reference_contract_witness :
  fs Sample.crlf_file FAQ_PATH = seen Sample.crlf_faq /\
  result_of (load_reference FAQ_PATH Sample.crlf_file) = Ok ("Mon-Fri" ++ Py.nl ++ "9-5") /\
  fs Sample.healthy FAQ_PATH = seen Sample.visible_faq /\
  result_of (load_reference FAQ_PATH Sample.healthy) = Ok Sample.office_hours /\
  fs Sample.no_file FAQ_PATH = seen Sample.hidden_faq /\
  (exists e, result_of (load_reference FAQ_PATH Sample.no_file) = Raise e /\
             isinstance_FileNotFoundError e = true).
Proof.
  split; [reflexivity|]. split; [|split; [reflexivity|split; [|split; [reflexivity|]]]].
  - destruct (load_reference_contract FAQ_PATH Sample.crlf_file Sample.crlf_faq eq_refl)
      as (_ & _ & _ & Hread).
    destruct (Hread (list_byte_of_string Sample.crlf_text) Sample.crlf_text)
      as [Hres _]; [reflexivity | reflexivity | reflexivity |].
    exact Hres.
  - destruct (load_reference_contract FAQ_PATH Sample.healthy Sample.visible_faq eq_refl)
      as (_ & _ & _ & Hread).
    destruct (Hread (list_byte_of_string Sample.office_hours) Sample.office_hours)
      as [_ Hres]; [reflexivity | reflexivity | reflexivity |].
    apply Hres. reflexivity.
  - destruct (load_reference_contract FAQ_PATH Sample.no_file Sample.hidden_faq eq_refl)
      as (Hiff & _ & _ & _).
    apply Hiff. reflexivity.
Defined.

(** For the handler such a file is a missing file: the user gets the
    missing-file notice although the file is in place. *)
Example hidden_reference_reported_missing :
  replies (trace_of (handle_text Sample.question (Sample.with_file (seen Sample.hidden_faq))))
  = [(MISSING_FILE, HTML)].
Proof. reflexivity. Qed.

(** [os.path.exists] on a world that shows what is on disk answers as
    [genericpath.exists] does. *)
Lemma os_path_exists_as_on_disk path w d :
  fs w path = seen d ->
  os_path_exists path w = ([PathExists path], Ok (genericpath_exists d)).
Proof.
  intros Hseen. unfold os_path_exists. rewrite Hseen.
  unfold seen. destruct (genericpath_exists d) eqn:He; [|reflexivity].
  destruct (held d) eqn:Hh; [|reflexivity|reflexivity].
  assert (Hfalse : genericpath_exists d = false)
    by (apply genericpath_exists_false_iff; now left).
  congruence.
Qed.

(** ** Start-up *)

Lemma credentials_missing_iff getenv :
  credentials_missing getenv = true <->
  Py.truthy (getenv ENV_TELEGRAM_TOKEN) = false \/
  Py.truthy (getenv ENV_GEMINI_API_KEY) = false.
Proof.
  unfold credentials_missing. rewrite orb_true_iff, !negb_true_iff. tauto.
Qed.

(** C6. With the bot token or the API key missing from the environment, the
    script logs one critical line and exits: the webhook is not touched,
    polling never starts and none of the pending updates is handled. *)
Theorem missing_credentials_never_poll (command_start : Message -> bool) p :
  environ p ENV_TELEGRAM_TOKEN = None \/ environ p ENV_GEMINI_API_KEY = None ->
  run_script command_start p
  = ([Logging CRITICAL MISSING_TOKENS_LOG], Raise (mkExn SystemExit MISSING_TOKENS_EXIT)) /\
  filter is_polling (trace_of (run_script command_start p)) = [] /\
  replies (trace_of (run_script command_start p)) = [] /\
  upstream_calls (trace_of (run_script command_start p)) = [] /\
  file_accesses (trace_of (run_script command_start p)) = [].
Proof.
  intros Hmissing.
  assert (Hcheck : credentials_missing (environ p) = true).
  { apply credentials_missing_iff. destruct Hmissing as [-> | ->]; cbn; tauto. }
  unfold run_script. rewrite Hcheck. repeat split.
Qed.

Lemma missing_credentials_never_poll_witness :
  run_script Sample.command_start (mkProcess Sample.only_token None Sample.pending)
  = ([Logging CRITICAL MISSING_TOKENS_LOG], Raise (mkExn SystemExit MISSING_TOKENS_EXIT)).
Proof.
  apply (missing_credentials_never_poll Sample.command_start
           (mkProcess Sample.only_token None Sample.pending)).
  right. reflexivity.
Defined.

(** An empty value counts as missing too. *)
Lemma empty_credential_never_polls (command_start : Message -> bool) p :
  environ p ENV_TELEGRAM_TOKEN = Some "" \/ environ p ENV_GEMINI_API_KEY = Some "" ->
  run_script command_start p
  = ([Logging CRITICAL MISSING_TOKENS_LOG], Raise (mkExn SystemExit MISSING_TOKENS_EXIT)).
Proof.
  intros Hempty.
  assert (Hcheck : credentials_missing (environ p) = true).
  { apply credentials_missing_iff. destruct Hempty as [-> | ->]; cbn; tauto. }
  unfold run_script. now rewrite Hcheck.
Qed.

(** With both credentials the same pending updates are polled and answered. *)
Example full_environment_polls :
  replies (trace_of (run_script Sample.command_start
                       (mkProcess Sample.full_env None Sample.pending)))
  = [(GREETING, HTML); (Sample.stub_answer, Markdown)] /\
  filter is_polling (trace_of (run_script Sample.command_start
                                 (mkProcess Sample.full_env None Sample.pending)))
  = [StartPolling].
Proof. split; vm_compute; reflexivity. Qed.

(** ** Polling *)

Lemma replies_app (t1 t2 : list call) :
  replies (t1 ++ t2) = (replies t1 ++ replies t2)%list.
Proof. unfold replies. apply flat_map_app. Qed.

(** No path through [handle_text] sends more than two replies. *)
Lemma handle_text_replies_bound message w :
  List.length (replies (trace_of (handle_text message w))) <= 2.
Proof.
  destruct (chat_action_result w) as [e|] eqn:Htyping.
  { rewrite (handle_text_typing_refused message w e Htyping). cbn. lia. }
  destruct (read_text (fs w FAQ_PATH)) as [reference|e0] eqn:Hread.
  - destruct (generate_content w (compose_prompt (message_text message) reference))
      as [answer|e] eqn:Hup.
    + destruct (answer_result w answer Markdown) as [e|] eqn:Hsend.
      * destruct (isinstance_Exception e) eqn:Hexc.
        -- rewrite (handle_text_answer_rejected message w Htyping reference Hread
                      answer e Hup Hsend Hexc). cbn. lia.
        -- rewrite (handle_text_answer_interrupted message w Htyping reference Hread
                      answer e Hup Hsend Hexc). cbn. lia.
      * rewrite (handle_text_answered message w Htyping reference Hread answer Hup Hsend).
        cbn. lia.
    + destruct (isinstance_Exception e) eqn:Hexc.
      * rewrite (handle_text_upstream_error message w Htyping reference Hread e Hup Hexc).
        cbn. lia.
      * rewrite (handle_text_upstream_signal message w Htyping reference Hread e Hup Hexc).
        cbn. lia.
  - destruct (isinstance_FileNotFoundError e0) eqn:Hnf.
    + assert (Habsent : fs w FAQ_PATH = Absent)
        by (apply read_text_not_found_iff; now exists e0).
      rewrite (handle_text_absent message w Htyping Habsent). cbn. lia.
    + rewrite (handle_text_read_error message w Htyping e0 Hread Hnf). cbn. lia.
Qed.

Lemma feed_update_replies_bound command_start message w :
  List.length (replies (trace_of (feed_update command_start message w))) <= 2.
Proof.
  destruct (command_start message) eqn:Hcmd.
  - rewrite (feed_update_start _ _ Hcmd), handle_start_run. cbn. lia.
  - rewrite (feed_update_text _ _ Hcmd). apply handle_text_replies_bound.
Qed.

(** An escaping error does not stop polling: the next update is still fed. *)
Example polling_survives_unreadable_reference :
  replies (trace_of (start_polling Sample.command_start
                       [(Sample.unreadable, Sample.question);
                        (Sample.healthy, Sample.question)]))
  = [(Sample.stub_answer, Markdown)].
Proof. vm_compute. reflexivity. Qed.

(** * Further properties of the code *)

(** ** Every run of [handle_text] takes one of the eight paths *)

Lemma handle_text_path message w : text_path message w (handle_text message w).
Proof.
  destruct (chat_action_result w) as [e|] eqn:Htyping.
  { rewrite (handle_text_typing_refused message w e Htyping). now constructor. }
  destruct (read_text (fs w FAQ_PATH)) as [reference|e0] eqn:Hread.
  - destruct (generate_content w (compose_prompt (message_text message) reference))
      as [answer|e] eqn:Hup.
    + destruct (answer_result w answer Markdown) as [e|] eqn:Hsend.
      * destruct (isinstance_Exception e) eqn:Hexc.
        -- rewrite (handle_text_answer_rejected message w Htyping reference Hread
                      answer e Hup Hsend Hexc).
           now apply AnswerRejected.
        -- rewrite (handle_text_answer_interrupted message w Htyping reference Hread
                      answer e Hup Hsend Hexc).
           now apply AnswerInterrupted.
      * rewrite (handle_text_answered message w Htyping reference Hread answer Hup Hsend).
        now apply Answered.
    + destruct (isinstance_Exception e) eqn:Hexc.
      * rewrite (handle_text_upstream_error message w Htyping reference Hread e Hup Hexc).
        now apply UpstreamFailed.
      * rewrite (handle_text_upstream_signal message w Htyping reference Hread e Hup Hexc).
        now apply UpstreamInterrupted.
  - destruct (isinstance_FileNotFoundError e0) eqn:Hnf.
    + assert (Habsent : fs w FAQ_PATH = Absent)
        by (apply read_text_not_found_iff; now exists e0).
      rewrite (handle_text_absent message w Htyping Habsent). now apply ReferenceMissing.
    + rewrite (handle_text_read_error message w Htyping e0 Hread Hnf).
      now apply ReadFailed.
Qed.

(** ** What [handle_text] does in every world *)

(** Whatever the world answers, one run of [handle_text] sends the typing
    indicator once, touches the file system at most twice, asks the upstream
    model at most once and sends at most two replies. *)
Theorem handle_text_call_budget message w :
  List.length (filter is_typing (trace_of (handle_text message w))) = 1 /\
  List.length (file_accesses (trace_of (handle_text message w))) <= 2 /\
  List.length (upstream_calls (trace_of (handle_text message w))) <= 1 /\
  List.length (replies (trace_of (handle_text message w))) <= 2.
Proof.
  destruct (handle_text_path message w); cbn; repeat split; lia.
Qed.

(** The upstream model is only ever asked after the typing indicator went
    out and the reference file was read, and what it is asked is the prompt
    made of the message text and of the text just read. *)
Theorem upstream_asked_only_with_reference message w prompt :
  In prompt (upstream_calls (trace_of (handle_text message w))) ->
  chat_action_result w = None /\
  exists reference,
    read_text (fs w FAQ_PATH) = Ok reference /\
    prompt = compose_prompt (message_text message) reference.
Proof.
  destruct (handle_text_path message w); cbn; intros Hin;
    try contradiction;
    destruct Hin as [<-|[]]; split; try assumption; now exists reference.
Qed.

Lemma upstream_asked_only_with_reference_witness :
  read_text (fs Sample.healthy FAQ_PATH) = Ok Sample.office_hours /\
  exists reference,
    read_text (fs Sample.healthy FAQ_PATH) = Ok reference /\
    compose_prompt (Py.Str "When are office hours?") Sample.office_hours
    = compose_prompt (message_text Sample.question) reference.
Proof.
  split; [reflexivity|].
  apply (upstream_asked_only_with_reference Sample.question Sample.healthy
           (compose_prompt (Py.Str "When are office hours?") Sample.office_hours)).
  vm_compute. left. reflexivity.
Defined.

(** Rich-text rendering is asked for the model's answer and for nothing else:
    a reply sent as Markdown is the text the upstream call returned, and a
    reply sent with the bot's default mode is one of the two fixed notices. *)
Theorem markdown_only_for_model_output message w body mode :
  In (body, mode) (replies (trace_of (handle_text message w))) ->
  match mode with
  | Markdown =>
      exists reference,
        read_text (fs w FAQ_PATH) = Ok reference /\
        generate_content w (compose_prompt (message_text message) reference) = Ok body
  | HTML => body = MISSING_FILE \/ body = GENERIC_FAILURE
  end.
Proof.
  destruct (handle_text_path message w); cbn; intros Hin;
    repeat match goal with
      | H : False |- _ => contradiction
      | H : _ \/ _ |- _ => destruct H
      | H : (_, _) = (_, _) |- _ => inversion H; subst; clear H
      end;
    try (now left); try (now right); now exists reference.
Qed.

Lemma markdown_only_for_model_output_witness :
  exists reference,
    read_text (fs Sample.markdown_refused FAQ_PATH) = Ok reference /\
    generate_content Sample.markdown_refused
      (compose_prompt (message_text Sample.question) reference) = Ok Sample.stub_answer.
Proof.
  apply (markdown_only_for_model_output Sample.question Sample.markdown_refused
           Sample.stub_answer Markdown).
  vm_compute. left. reflexivity.
Defined.

Ltac delivered_on_path :=
  unfold delivered, trace_of, result_of, asking_calls, opening_calls;
  cbn [replies flat_map app filter fst snd of_option];
  repeat match goal with
    | H : answer_result _ _ _ = _ |- _ => rewrite H
    end;
  cbn [of_option].

Ltac settle_delivery :=
  cbn [of_option]; repeat split; intros;
  repeat match goal with
    | H : exists _, _ |- _ => destruct H
    end;
  try discriminate; try reflexivity; eauto.

(** A handler returns normally exactly when one reply reached the chat, and
    raises exactly when none did: in no world does an update end with a
    delivered reply and an error, or with two delivered replies. *)
Theorem handler_returns_iff_one_reply_delivered
        (command_start : Message -> bool) message w :
  (result_of (feed_update command_start message w) = Ok tt
   <-> exists r, delivered w (trace_of (feed_update command_start message w)) = [r]) /\
  ((exists e, result_of (feed_update command_start message w) = Raise e)
   <-> delivered w (trace_of (feed_update command_start message w)) = []).
Proof.
  destruct (command_start message) eqn:Hcmd.
  - rewrite (feed_update_start _ _ Hcmd), handle_start_run.
    delivered_on_path. destruct (answer_result w GREETING HTML); settle_delivery.
  - rewrite (feed_update_text _ _ Hcmd).
    destruct (handle_text_path message w); delivered_on_path;
      try match goal with
        | |- context [answer_result w ?body HTML] => destruct (answer_result w body HTML)
        end;
      settle_delivery.
Qed.

(** ** Errors that [handle_text] does not absorb *)

(** A refused typing indicator ends the handler at once: the error leaves
    it, and neither the file system nor the upstream model nor the chat is
    touched. *)
Theorem typing_refused_stops_handler message w e :
  chat_action_result w = Some e ->
  result_of (handle_text message w) = Raise e /\
  file_accesses (trace_of (handle_text message w)) = [] /\
  upstream_calls (trace_of (handle_text message w)) = [] /\
  replies (trace_of (handle_text message w)) = [].
Proof.
  intros Hrefused. rewrite (handle_text_typing_refused message w e Hrefused).
  repeat split.
Qed.

Lemma typing_refused_stops_handler_witness :
  result_of (handle_text Sample.question
               (mkWorld (fs Sample.healthy) (Some (mkExn TelegramNetworkError "timeout"))
                        Sample.accept_all (generate_content Sample.healthy)))
  = Raise (mkExn TelegramNetworkError "timeout").
Proof.
  apply (typing_refused_stops_handler Sample.question
           (mkWorld (fs Sample.healthy) (Some (mkExn TelegramNetworkError "timeout"))
                    Sample.accept_all (generate_content Sample.healthy))
           (mkExn TelegramNetworkError "timeout")).
  reflexivity.
Defined.

(** [except Exception] leaves cancellation and interrupts alone: when the
    upstream call ends with one, it passes through the handler and no
    generic-failure notice, nor any other reply, is sent. *)
Theorem upstream_cancellation_passes_through message w reference e :
  chat_action_result w = None ->
  read_text (fs w FAQ_PATH) = Ok reference ->
  generate_content w (compose_prompt (message_text message) reference) = Raise e ->
  isinstance_Exception e = false ->
  result_of (handle_text message w) = Raise e /\
  replies (trace_of (handle_text message w)) = [] /\
  ~ In (Logging ERROR (log_gemini_error message e)) (trace_of (handle_text message w)).
Proof.
  intros Htyping Hread Hup Hsig.
  rewrite (handle_text_upstream_signal message w Htyping reference Hread e Hup Hsig).
  repeat split. cbn. intros H.
  repeat (destruct H as [H|H]; [discriminate H|]). exact H.
Qed.

Lemma upstream_cancellation_passes_through_witness :
  replies (trace_of (handle_text Sample.question
                       (mkWorld (fs Sample.healthy) None Sample.accept_all
                                (fun _ => Raise (mkExn CancelledError ""))))) = [].
Proof.
  apply (upstream_cancellation_passes_through Sample.question
           (mkWorld (fs Sample.healthy) None Sample.accept_all
                    (fun _ => Raise (mkExn CancelledError "")))
           Sample.office_hours (mkExn CancelledError ""));
    reflexivity.
Defined.

(** The send inside the [except] branch is not guarded: when the platform
    refuses the generic-failure notice as well, that second error leaves the
    handler in place of the upstream one, and nothing reaches the chat. *)
Theorem refused_failure_notice_escapes message w reference e refusal :
  chat_action_result w = None ->
  read_text (fs w FAQ_PATH) = Ok reference ->
  generate_content w (compose_prompt (message_text message) reference) = Raise e ->
  isinstance_Exception e = true ->
  answer_result w GENERIC_FAILURE HTML = Some refusal ->
  result_of (handle_text message w) = Raise refusal /\
  replies (trace_of (handle_text message w)) = [(GENERIC_FAILURE, HTML)] /\
  delivered w (trace_of (handle_text message w)) = [].
Proof.
  intros Htyping Hread Hup Hexc Hrefused.
  rewrite (handle_text_upstream_error message w Htyping reference Hread e Hup Hexc).
  delivered_on_path. repeat split.
Qed.

Lemma refused_failure_notice_escapes_witness :
  result_of (handle_text Sample.question
               (mkWorld (fs Sample.healthy) None (fun _ _ => Some Sample.markup_rejected)
                        (fun _ => Raise Sample.quota)))
  = Raise Sample.markup_rejected.
Proof.
  apply (refused_failure_notice_escapes Sample.question
           (mkWorld (fs Sample.healthy) None (fun _ _ => Some Sample.markup_rejected)
                    (fun _ => Raise Sample.quota))
           Sample.office_hours Sample.quota Sample.markup_rejected);
    reflexivity.
Defined.

(** The same holds for the missing-file notice, sent from the first
    [except] branch. *)
Theorem refused_missing_notice_escapes message w refusal :
  chat_action_result w = None ->
  fs w FAQ_PATH = Absent ->
  answer_result w MISSING_FILE HTML = Some refusal ->
  result_of (handle_text message w) = Raise refusal /\
  delivered w (trace_of (handle_text message w)) = [].
Proof.
  intros Htyping Habsent Hrefused.
  rewrite (handle_text_absent message w Htyping Habsent).
  delivered_on_path. repeat split.
Qed.

Lemma refused_missing_notice_escapes_witness :
  result_of (handle_text Sample.question
               (mkWorld (fs Sample.no_file) None (fun _ _ => Some Sample.markup_rejected)
                        (generate_content Sample.no_file)))
  = Raise Sample.markup_rejected.
Proof.
  apply (refused_missing_notice_escapes Sample.question
           (mkWorld (fs Sample.no_file) None (fun _ _ => Some Sample.markup_rejected)
                    (generate_content Sample.no_file))
           Sample.markup_rejected);
    reflexivity.
Defined.

(** ** The answer path *)

(** When the file is read, the model answers and the platform takes the
    answer, the chat gets that text unchanged, as Markdown, once; the handler
    then logs the success and returns. *)
Theorem answer_relayed_verbatim message w reference answer :
  chat_action_result w = None ->
  read_text (fs w FAQ_PATH) = Ok reference ->
  generate_content w (compose_prompt (message_text message) reference) = Ok answer ->
  answer_result w answer Markdown = None ->
  replies (trace_of (handle_text message w)) = [(answer, Markdown)] /\
  delivered w (trace_of (handle_text message w)) = [(answer, Markdown)] /\
  last (trace_of (handle_text message w)) StartPolling = Logging INFO (log_answered message) /\
  result_of (handle_text message w) = Ok tt.
Proof.
  intros Htyping Hread Hup Hsend.
  rewrite (handle_text_answered message w Htyping reference Hread answer Hup Hsend).
  delivered_on_path. repeat split.
Qed.

Lemma answer_relayed_verbatim_witness :
  replies (trace_of (handle_text Sample.question Sample.healthy))
  = [(Sample.stub_answer, Markdown)].
Proof.
  apply (answer_relayed_verbatim Sample.question Sample.healthy
           Sample.office_hours Sample.stub_answer);
    reflexivity.
Defined.

Lemma log_received_is_not_log_answered message :
  log_received message <> log_answered message.
Proof. unfold log_received, log_answered. cbn. discriminate. Qed.

(** The success line is honest: it is in the log exactly when the model
    answered and the platform accepted the answer. *)
Theorem success_logged_iff_answer_delivered message w :
  In (Logging INFO (log_answered message)) (trace_of (handle_text message w))
  <-> exists reference answer,
        chat_action_result w = None /\
        read_text (fs w FAQ_PATH) = Ok reference /\
        generate_content w (compose_prompt (message_text message) reference) = Ok answer /\
        answer_result w answer Markdown = None.
Proof.
  pose proof (log_received_is_not_log_answered message) as Hdiff.
  split.
  - destruct (handle_text_path message w); cbn; intros Hin;
      repeat match goal with
        | H : False |- _ => contradiction
        | H : _ \/ _ |- _ => destruct H
        | H : Logging _ _ = Logging _ _ |- _ => inversion H; clear H
        | H : _ = Logging _ _ |- _ => discriminate H
        end;
      try congruence.
    now exists reference, answer.
  - intros (reference & answer & Htyping & Hread & Hup & Hsend).
    rewrite (handle_text_answered message w Htyping reference Hread answer Hup Hsend).
    cbn. tauto.
Qed.

(** ** More on the prompt *)

Lemma length_append (a b : string) :
  String.length (a ++ b) = String.length a + String.length b.
Proof. induction a as [|x a IH]; simpl; [reflexivity | now rewrite IH]. Qed.

Lemma append_cancel_l (a b c : string) : a ++ b = a ++ c -> b = c.
Proof.
  induction a as [|x a IH]; simpl; intros H; [exact H|].
  injection H as H. now apply IH.
Qed.

Lemma append_cancel_r (a b c : string) : a ++ c = b ++ c -> a = b.
Proof.
  revert b; induction a as [|x a IH]; intros [|y b] H; simpl in H.
  - reflexivity.
  - apply (f_equal String.length) in H. simpl in H. rewrite length_append in H. lia.
  - apply (f_equal String.length) in H. simpl in H. rewrite length_append in H. lia.
  - injection H as -> H. f_equal. now apply IH.
Qed.

(** With the reference fixed the prompt tells the questions apart, and with
    the question fixed it tells the references apart. *)
Theorem compose_prompt_separates_inputs (q1 q2 r1 r2 : string) :
  (compose_prompt (Py.Str q1) r1 = compose_prompt (Py.Str q2) r1 -> q1 = q2) /\
  (compose_prompt (Py.Str q1) r1 = compose_prompt (Py.Str q1) r2 -> r1 = r2).
Proof.
  unfold compose_prompt. cbn [Py.fmt]. split; intros H.
  - now do 5 apply append_cancel_l in H.
  - do 2 apply append_cancel_l in H.
    apply append_cancel_r in H. now apply append_cancel_r in H.
Qed.

Lemma compose_prompt_separates_inputs_witness :
  compose_prompt (Py.Str "a") "r" = compose_prompt (Py.Str "a") "r" /\
  "a" = "a" /\ "r" = "r".
Proof.
  destruct (compose_prompt_separates_inputs "a" "a" "r" "r") as [Hq Hr].
  split; [reflexivity|]. split; [apply Hq | apply Hr]; reflexivity.
Defined.

Lemma prompt_separator_length : String.length PROMPT_SEPARATOR = 104.
Proof. vm_compute. reflexivity. Qed.

(** Question and reference together are not recoverable: nothing in the
    inputs is escaped, so a reference that carries the closing delimiter and
    the question label gives the very prompt of a shorter reference with a
    longer question. *)
Theorem compose_prompt_delimiters_can_be_forged (a b c : string) :
  compose_prompt (Py.Str (b ++ PROMPT_SEPARATOR ++ c)) a
  = compose_prompt (Py.Str c) (a ++ PROMPT_SEPARATOR ++ b) /\
  b ++ PROMPT_SEPARATOR ++ c <> c /\
  a ++ PROMPT_SEPARATOR ++ b <> a.
Proof.
  split; [|split].
  - unfold compose_prompt, PROMPT_SEPARATOR. cbn [Py.fmt].
    now rewrite !append_assoc.
  - intros H. apply (f_equal String.length) in H.
    rewrite !length_append in H.
    rewrite prompt_separator_length in H. lia.
  - intros H. apply (f_equal String.length) in H.
    rewrite !length_append in H.
    rewrite prompt_separator_length in H. lia.
Qed.

(** A message without text is handled exactly like one whose text is the
    four letters "None": same log line, same prompt, same replies. *)
Theorem absent_text_handled_as_None_text message w :
  text message = None ->
  handle_text message w = handle_text (with_text message (Some "None")) w.
Proof.
  destruct message as [sender chat t cap]. cbn [text]. intros ->. reflexivity.
Qed.

Lemma absent_text_handled_as_None_text_witness :
  handle_text Sample.sticker Sample.healthy
  = handle_text (with_text Sample.sticker (Some "None")) Sample.healthy.
Proof.
  apply (absent_text_handled_as_None_text Sample.sticker Sample.healthy).
  reflexivity.
Defined.

(** ** More on [load_reference] *)

Lemma universal_newlines_to_crlf (s : string) :
  has_cr s = false -> universal_newlines false (to_crlf s) = s.
Proof.
  induction s as [|c s IH]; [reflexivity|].
  cbn [has_cr to_crlf]. intros H. apply orb_false_iff in H as [Hc Hs].
  destruct (Ascii.eqb c Py.lf) eqn:Hlf.
  - apply Ascii.eqb_eq in Hlf as ->. cbn. now rewrite IH.
  - cbn [universal_newlines]. rewrite Hc, Hlf. cbn. now rewrite IH.
Qed.

Lemma universal_newlines_to_cr (s : string) (after_cr : bool) :
  has_cr s = false -> universal_newlines after_cr (to_cr s) = s.
Proof.
  revert after_cr. induction s as [|c s IH]; intros after_cr; [reflexivity|].
  cbn [has_cr to_cr]. intros H. apply orb_false_iff in H as [Hc Hs].
  destruct (Ascii.eqb c Py.lf) eqn:Hlf.
  - apply Ascii.eqb_eq in Hlf as ->. cbn. now rewrite IH.
  - cbn [universal_newlines]. rewrite Hc, Hlf. cbn. now rewrite IH.
Qed.

(** What [load_reference] returns never holds a carriage return. *)
Theorem load_reference_returns_no_cr path w reference :
  result_of (load_reference path w) = Ok reference -> has_cr reference = false.
Proof.
  destruct (fs w path) as [| |[|] content] eqn:Hentry.
  - now rewrite (load_reference_absent _ _ Hentry).
  - rewrite load_reference_present by (rewrite Hentry; discriminate).
    rewrite Hentry. discriminate.
  - rewrite load_reference_present by (rewrite Hentry; discriminate).
    rewrite Hentry. cbn. destruct (Utf8.decode content); [|discriminate].
    intros H. injection H as <-. apply universal_newlines_no_cr.
  - rewrite load_reference_present by (rewrite Hentry; discriminate).
    rewrite Hentry. discriminate.
Qed.

Lemma load_reference_returns_no_cr_witness :
  result_of (load_reference FAQ_PATH Sample.crlf_file) = Ok ("Mon-Fri" ++ Py.nl ++ "9-5") /\
  has_cr ("Mon-Fri" ++ Py.nl ++ "9-5") = false.
Proof.
  split; [reflexivity|].
  apply (load_reference_returns_no_cr FAQ_PATH Sample.crlf_file). reflexivity.
Defined.

(** The line-ending convention of the file does not matter: a text saved
    with LF, with CR LF or with lone CR line ends is loaded as the same
    string. *)
Theorem load_reference_ignores_line_ending_style path w content reference :
  fs w path = Regular true content ->
  has_cr reference = false ->
  Utf8.decode content = Some reference \/
  Utf8.decode content = Some (to_crlf reference) \/
  Utf8.decode content = Some (to_cr reference) ->
  result_of (load_reference path w) = Ok reference.
Proof.
  intros Hentry Hcr Hdec.
  rewrite load_reference_present by (rewrite Hentry; discriminate).
  rewrite Hentry. cbn.
  destruct Hdec as [-> | [-> | ->]]; f_equal.
  - now apply universal_newlines_id.
  - now apply universal_newlines_to_crlf.
  - now apply universal_newlines_to_cr.
Qed.

Lemma load_reference_ignores_line_ending_style_witness :
  to_crlf ("Mon-Fri" ++ Py.nl ++ "9-5") = Sample.crlf_text /\
  result_of (load_reference FAQ_PATH Sample.crlf_file) = Ok ("Mon-Fri" ++ Py.nl ++ "9-5").
Proof.
  split; [reflexivity|].
  apply (load_reference_ignores_line_ending_style FAQ_PATH Sample.crlf_file
           (list_byte_of_string Sample.crlf_text) ("Mon-Fri" ++ Py.nl ++ "9-5"));
    [reflexivity | reflexivity | right; left; reflexivity].
Defined.

(** The file is opened only after the existence test succeeded, and the
    error for a missing file names the path that was asked for. *)
Theorem load_reference_opens_only_existing_entries path w :
  (In (OpenRead path) (trace_of (load_reference path w)) <-> fs w path <> Absent) /\
  (fs w path = Absent ->
   exists e,
     result_of (load_reference path w) = Raise e /\
     occurs_in path (exn_str e)).
Proof.
  split; [split|].
  - intros Hin Habs. rewrite (load_reference_absent _ _ Habs) in Hin.
    cbn in Hin. destruct Hin as [H|[]]. discriminate H.
  - intros Hpresent. rewrite (load_reference_present _ _ Hpresent). cbn. tauto.
  - intros Habs. rewrite (load_reference_absent _ _ Habs).
    eexists. split; [reflexivity|].
    cbn [exn_str]. unfold not_found_text.
    apply occurs_in_append_l, occurs_in_append_r, occurs_in_refl.
Qed.

Lemma load_reference_opens_only_existing_entries_witness :
  In (OpenRead FAQ_PATH) (trace_of (load_reference FAQ_PATH Sample.healthy)) /\
  exists e,
    result_of (load_reference FAQ_PATH Sample.no_file) = Raise e /\
    occurs_in FAQ_PATH (exn_str e).
Proof.
  split.
  - apply (load_reference_opens_only_existing_entries FAQ_PATH Sample.healthy). discriminate.
  - apply (load_reference_opens_only_existing_entries FAQ_PATH Sample.no_file). reflexivity.
Defined.

(** ** The script as a whole *)






(** When nothing before the [try] raises, [run_script] is the module run
    without its two printed lines. *)
Lemma run_script_is_guarded_main command_start p :
  credentials_missing (environ p) = false ->
  run_script command_start p = guarded_main command_start p.
Proof. intros H. unfold run_script, guarded_main. now rewrite H. Qed.




Lemma sample_launch_passes :
  result_of (module_preamble
               (mkLaunch (mkProcess Sample.full_env None Sample.pending)
                         (fun _ _ => None) (Ok "/srv/bot") (fs Sample.healthy) (fun _ => None)))
  = Ok tt.
Proof. reflexivity. Qed.




(** An error of the constructors of lines 55-60, such as the refusal of a
    malformed token by [Bot(token=...)], is not caught: they stand before
    the [try], so the script ends with that error, with nothing logged or
    printed, the webhook untouched and no update polled. *)
Theorem refused_token_ends_script (command_start : Message -> bool) l token key e :
  credentials_missing (environ (launched l)) = false ->
  environ (launched l) ENV_TELEGRAM_TOKEN = Some token ->
  environ (launched l) ENV_GEMINI_API_KEY = Some key ->
  clients_init l token key = Some e ->
  run_module command_start l = ([], Raise e).
Proof.
  intros Hcred Htok Hkey Hinit. unfold run_module, module_preamble.
  now rewrite Hcred, Htok, Hkey, Hinit.
Qed.

Lemma refused_token_ends_script_witness :
  run_module Sample.command_start
    (mkLaunch (mkProcess Sample.full_env None Sample.pending)
              (fun _ _ => Some (mkExn (UserException "TokenValidationError")
                                    "Token is invalid!"))
              (Ok "/srv/bot") (fs Sample.healthy) (fun _ => None))
  = ([], Raise (mkExn (UserException "TokenValidationError") "Token is invalid!")).
Proof.
  apply (refused_token_ends_script Sample.command_start
           (mkLaunch (mkProcess Sample.full_env None Sample.pending)
                     (fun _ _ => Some (mkExn (UserException "TokenValidationError")
                                           "Token is invalid!"))
                     (Ok "/srv/bot") (fs Sample.healthy) (fun _ => None))
           "123:abc" "key");
    reflexivity.
Defined.

(** Once the statements before the [try] have passed, a webhook deletion
    refused with an ordinary error is a start-up failure: the script logs
    one critical line carrying the error text, never starts polling, handles
    no update and ends normally. *)
Theorem webhook_failure_logged_and_swallowed (command_start : Message -> bool) l e :
  result_of (module_preamble l) = Ok tt ->
  delete_webhook_result (launched l) = Some e ->
  isinstance_Exception e = true ->
  run_module command_start l
  = ((trace_of (module_preamble l)
      ++ [DeleteWebhook true;
          Logging CRITICAL ("Помилка під час запуску: " ++ exn_str e)])%list,
     Ok tt).
Proof.
  intros Hpre Hdel Hexc. unfold run_module, guarded_main, main.
  destruct (module_preamble l) as [t r]. cbn [result_of trace_of fst snd] in *. subst r.
  rewrite Hdel.
  assert (Hki : isinstance_KeyboardInterrupt e = false).
  { unfold isinstance_Exception in Hexc. unfold isinstance_KeyboardInterrupt.
    destruct (exn_class_of e); congruence. }
  now rewrite Hki, Hexc.
Qed.

Lemma webhook_failure_logged_and_swallowed_witness :
  result_of (run_module Sample.command_start
               (mkLaunch (mkProcess Sample.full_env
                                    (Some (mkExn TelegramNetworkError "timeout"))
                                    Sample.pending)
                         (fun _ _ => None) (Ok "/srv/bot") (fs Sample.healthy)
                         (fun _ => None)))
  = Ok tt.
Proof.
  rewrite (webhook_failure_logged_and_swallowed Sample.command_start
             (mkLaunch (mkProcess Sample.full_env
                                  (Some (mkExn TelegramNetworkError "timeout"))
                                  Sample.pending)
                       (fun _ _ => None) (Ok "/srv/bot") (fs Sample.healthy)
                       (fun _ => None))
             (mkExn TelegramNetworkError "timeout"));
    reflexivity.
Defined.

(** With the bot token or the API key missing the whole module, too, ends
    at the credential check. *)
Lemma missing_credentials_end_module (command_start : Message -> bool) l :
  credentials_missing (environ (launched l)) = true ->
  run_module command_start l
  = ([Logging CRITICAL MISSING_TOKENS_LOG], Raise (mkExn SystemExit MISSING_TOKENS_EXIT)).
Proof. intros H. unfold run_module, module_preamble. now rewrite H. Qed.

(** The whole module on the sample environment: two printed lines, the
    webhook deletion, then polling. *)
Example module_run_prints_then_polls :
  firstn 5 (trace_of (run_module Sample.command_start
                        (mkLaunch (mkProcess Sample.full_env None Sample.pending)
                                  (fun _ _ => None) (Ok "/srv/bot") (fs Sample.healthy)
                                  (fun _ => None))))
  = [Print (cwd_line "/srv/bot"); Print "Файл FAQ.txt існує: True";
     DeleteWebhook true; Logging INFO "Бот запускається..."; StartPolling].
Proof. vm_compute. reflexivity. Qed.
